(** * Sparse DIAgonal format: a shallow embedding of [scipy/sparse/dia.py]

    The class [dia_matrix] stores a sparse matrix as a set of diagonals:
    [data[i,:]] holds the entries of the diagonal with offset [diags[i]].
    This file embeds the constructor's format check, [getnnz], [__mul__],
    [matvec], [tocoo] and [_with_data], together with the fragment of numpy
    they rely on (ranks and shapes, Python slices, broadcasting ufuncs with
    an output argument, boolean-mask selection), and proves the properties
    of the storage scheme stated in the design document. *)

From Stdlib Require Import ZArith String DecimalString Lia.
From stdpp Require Import base list.

Local Open Scope string_scope.
Local Open Scope list_scope.
Local Open Scope Z_scope.

(** ** Exceptions and the error monad *)

(** Every exception raised by [dia.py] itself is a [ValueError]; numpy raises
    [ValueError] on incompatible shapes and [IndexError]/[TypeError] when a
    0-d array is indexed or iterated.  [InvalidShape] is what the shape
    setter of the base class raises, under the name the design document
    gives it. *)
Inductive exn : Type :=
| ValueError (msg : string)
| IndexError (msg : string)
| TypeError (msg : string)
| InvalidShape.

Inductive res (A : Type) : Type :=
| Ret (a : A)
| Raise (e : exn).
Arguments Ret {A} a.
Arguments Raise {A} e.

#[global] Instance res_ret : MRet res := fun A a => Ret a.
#[global] Instance res_bind : MBind res := fun A B k m =>
  match m with
  | Ret a => k a
  | Raise e => Raise e
  end.

(** A [for] loop whose body may raise: the state is threaded from left to
    right and the first exception aborts the loop. *)
Fixpoint for_each {S X : Type} (body : S -> X -> res S) (xs : list X) (s : S)
  : res S :=
  match xs with
  | [] => Ret s
  | x :: xs' => s' ← body s x; for_each body xs' s'
  end.

(** ** The numpy fragment *)

Module Np.

(** An n-dimensional array, by rank.  A rank-2 array keeps its column count
    next to its rows, so that shapes [(0, L)] and [(K, 0)] exist; ranks three
    and above keep their shape and the elements in C order. *)
Inductive ndarray (A : Type) : Type :=
| Nd0 (x : A)
| Nd1 (xs : list A)
| Nd2 (ncols : nat) (rows : list (list A))
| NdN (d0 d1 d2 : nat) (rest : list nat) (flat : list A).
Arguments Nd0 {A} x.
Arguments Nd1 {A} xs.
Arguments Nd2 {A} ncols rows.
Arguments NdN {A} d0 d1 d2 rest flat.

Section Arrays.
Context {A : Type}.

Definition shape_of (a : ndarray A) : list nat :=
  match a with
  | Nd0 _ => []
  | Nd1 xs => [length xs]
  | Nd2 c rows => [length rows; c]
  | NdN d0 d1 d2 rest _ => d0 :: d1 :: d2 :: rest
  end.

Definition ndim (a : ndarray A) : nat := length (shape_of a).

(** [a.shape[i]] *)
Definition shape_at (a : ndarray A) (i : nat) : res nat :=
  match shape_of a !! i with
  | Some d => Ret d
  | None => Raise (IndexError "tuple index out of range")
  end.

(** [len(a)] *)
Definition len (a : ndarray A) : res nat :=
  match shape_of a with
  | [] => Raise (TypeError "len() of unsized object")
  | d :: _ => Ret d
  end.

(** The elements in C order ([a.ravel()]). *)
Definition ravel (a : ndarray A) : list A :=
  match a with
  | Nd0 x => [x]
  | Nd1 xs => xs
  | Nd2 _ rows => concat rows
  | NdN _ _ _ _ flat => flat
  end.

(** Rectangular arrays: what [array(...)] builds from well-formed input. *)
Definition wf (a : ndarray A) : Prop :=
  match a with
  | Nd0 _ | Nd1 _ => True
  | Nd2 c rows => Forall (fun r => length r = c) rows
  | NdN d0 d1 d2 rest flat =>
      length flat = foldr Nat.mul 1%nat (d0 :: d1 :: d2 :: rest)
  end.

Definition atleast_1d (a : ndarray A) : ndarray A :=
  match a with
  | Nd0 x => Nd1 [x]
  | _ => a
  end.

Definition atleast_2d (a : ndarray A) : ndarray A :=
  match a with
  | Nd0 x => Nd2 1 [[x]]
  | Nd1 xs => Nd2 (length xs) [xs]
  | _ => a
  end.

(** Iterating over a rank-1 array yields its scalars. *)
Definition scalars (a : ndarray A) : res (list A) :=
  match a with
  | Nd1 xs => Ret xs
  | Nd0 _ => Raise (TypeError "iteration over a 0-d array")
  | _ => Raise (ValueError "The truth value of an array with more than one element is ambiguous")
  end.

(** The rows and the row width of a rank-2 array. *)
Definition matrix_rows (a : ndarray A) : res (nat * list (list A)) :=
  match a with
  | Nd2 c rows => Ret (c, rows)
  | _ => Raise (IndexError "tuple index out of range")
  end.

End Arrays.

(** A function applied to every element ([astype], scalar arithmetic). *)
Definition map_array {A B : Type} (f : A -> B) (a : ndarray A) : ndarray B :=
  match a with
  | Nd0 x => Nd0 (f x)
  | Nd1 xs => Nd1 (fmap (M:=list) f xs)
  | Nd2 c rows => Nd2 c (fmap (M:=list) (fmap (M:=list) f) rows)
  | NdN d0 d1 d2 rest flat => NdN d0 d1 d2 rest (fmap (M:=list) f flat)
  end.

(** [dtype='i']: a C int, 32 bits, two's complement. *)
Definition intc (k : Z) : Z := (k + 2 ^ 31) mod 2 ^ 32 - 2 ^ 31.

(** [unique(a)]: the sorted distinct values of [a]. *)
Fixpoint insert_unique (k : Z) (s : list Z) : list Z :=
  match s with
  | [] => [k]
  | h :: t =>
      if k <? h then k :: s
      else if k =? h then s
      else h :: insert_unique k t
  end.

Definition unique (ks : list Z) : list Z := foldr insert_unique [] ks.

(** [arange(n)] *)
Definition arange (n : nat) : list Z := Z.of_nat <$> seq 0 n.

(** *** Python slices

    [l[start:stop]]: a negative bound counts from the end, and both bounds
    are then clipped to [0 .. len(l)]. *)
Definition slice_index (n : nat) (i : Z) : nat :=
  Z.to_nat (Z.max 0 (Z.min (Z.of_nat n) (if i <? 0 then i + Z.of_nat n else i))).

Definition slice {A : Type} (l : list A) (start stop : Z) : list A :=
  let s := slice_index (length l) start in
  let e := slice_index (length l) stop in
  take (e - s) (drop s l).

(** Writing [new] through the view [l[start:stop]]; [new] has the length of
    the view. *)
Definition slice_assign {A : Type} (l : list A) (start stop : Z) (new : list A)
  : list A :=
  let s := slice_index (length l) start in
  let e := slice_index (length l) stop in
  take s l ++ new ++ drop (s + (e - s)) l.

(** [a[start:stop]]: a slice along the first axis. *)
Definition slice0 {A : Type} (a : ndarray A) (start stop : Z) : res (ndarray A) :=
  match a with
  | Nd0 _ => Raise (IndexError "0-d arrays can't be indexed")
  | Nd1 xs => Ret (Nd1 (slice xs start stop))
  | Nd2 c rows => Ret (Nd2 c (slice rows start stop))
  | NdN d0 d1 d2 rest flat =>
      let s := slice_index d0 start in
      let e := slice_index d0 stop in
      let stride := foldr Nat.mul 1%nat (d1 :: d2 :: rest) in
      Ret (NdN (e - s) d1 d2 rest (take ((e - s) * stride) (drop (s * stride) flat)))
  end.

(** [xs.reshape(-1,1)] of a rank-1 array. *)
Definition column {A : Type} (xs : list A) : ndarray A :=
  Nd2 1 (fmap (M:=list) (fun v => [v]) xs).

(** *** Broadcasting ufuncs with an output argument *)

Definition broadcast_dim (a b : nat) : option nat :=
  if (a =? b)%nat then Some a
  else if (a =? 1)%nat then Some b
  else if (b =? 1)%nat then Some a
  else None.

(** Shapes are aligned at their last axis: the recursion runs over the
    reversed shapes. *)
Fixpoint broadcast_rev (s1 s2 : list nat) : option (list nat) :=
  match s1, s2 with
  | [], _ => Some s2
  | _, [] => Some s1
  | a :: s1', b :: s2' =>
      match broadcast_dim a b, broadcast_rev s1' s2' with
      | Some d, Some r => Some (d :: r)
      | _, _ => None
      end
  end.

Definition broadcast_shapes (s1 s2 : list nat) : option (list nat) :=
  match broadcast_rev (reverse s1) (reverse s2) with
  | Some r => Some (reverse r)
  | None => None
  end.

(** The element an array of rank at most 2 contributes at position [(r, c)]
    of a rank-2 result: an axis of extent 1 is repeated. *)
Definition get2 {A : Type} (d : A) (a : ndarray A) (r c : nat) : A :=
  match a with
  | Nd0 x => x
  | Nd1 xs => default d (xs !! (if (length xs =? 1)%nat then 0%nat else c))
  | Nd2 nc rows =>
      match rows !! (if (length rows =? 1)%nat then 0%nat else r) with
      | Some row => default d (row !! (if (nc =? 1)%nat then 0%nat else c))
      | None => d
      end
  | NdN _ _ _ _ _ => d
  end.

Definition tabulate2 {A : Type} (nr nc : nat) (f : nat -> nat -> A)
  : list (list A) :=
  fmap (M:=list) (fun r => fmap (M:=list) (f r) (seq 0 nc)) (seq 0 nr).

(** [f(a, b, out)] for a binary ufunc [f] and a rank-2 output of shape
    [(out_rows, out_cols)]: the inputs are broadcast against each other, and
    the output must have exactly the resulting shape.  The value returned is
    what is written to [out]. *)
Definition ufunc2 {A : Type} (d : A) (f : A -> A -> A) (a b : ndarray A)
    (out_rows out_cols : nat) : res (list (list A)) :=
  match broadcast_shapes (shape_of a) (shape_of b) with
  | None =>
      Raise (ValueError "shape mismatch: objects cannot be broadcast to a single shape")
  | Some s =>
      if bool_decide (s = [out_rows; out_cols])
      then Ret (tabulate2 out_rows out_cols (fun r c => f (get2 d a r c) (get2 d b r c)))
      else Raise (ValueError "invalid return array shape")
  end.

(** [zeros((m, p))] and [empty_like]: the latter allocates without
    initialising, so its elements are whatever [junk] the memory holds. *)
Definition full {A : Type} (v : A) (m : Z) (p : nat) : res (list (list A)) :=
  if m <? 0 then Raise (ValueError "negative dimensions are not allowed")
  else Ret (replicate (Z.to_nat m) (replicate p v)).

(** *** Boolean masks: [a[mask]] keeps, in C order, the elements of [a] at
    which [mask] is true. *)
Fixpoint compress {A : Type} (mask : list bool) (xs : list A) : list A :=
  match mask, xs with
  | b :: mask', x :: xs' =>
      if b then x :: compress mask' xs' else compress mask' xs'
  | _, _ => []
  end.

Definition select {A : Type} (mask : list (list bool)) (a : list (list A))
  : list A :=
  concat (zip_with compress mask a).

(** ['%d' % n] *)
Definition decimal (n : nat) : string := NilZero.string_of_uint (Nat.to_uint n).

End Np.

Import Np.

(** ** Element types *)

(** The element type of [data] with its zero, addition and multiplication
    (the dtype; promotion between dtypes is left to numpy), and the content
    of freshly allocated, uninitialised memory. *)
Class Dtype (T : Type) : Type := {
  zero : T;
  add : T -> T -> T;
  mul : T -> T -> T;
  junk : T
}.

#[global] Instance Z_dtype : Dtype Z :=
  {| zero := 0; add := Z.add; mul := Z.mul; junk := 12345 |}.

(** ** The class [dia_matrix] *)

Section DiaMatrix.

Context {T : Type} {DT : Dtype T}.

Record dia_matrix : Type := DiaMatrix {
  data : ndarray T;
  diags : ndarray Z;
  shape : Z * Z
}.

(** The coordinate format handed to [coo_matrix((data,(row,col)), shape)]. *)
Record coo_matrix : Type := CooMatrix {
  coo_data : list T;
  coo_row : list Z;
  coo_col : list Z;
  coo_shape : Z * Z
}.

(** The argument forms of the constructor that this file builds itself; the
    tag stands for the outcome of the tests [isspmatrix_dia], [isshape] and
    of unpacking the tuple.  General sparse and dense sources go through
    [coo_matrix(...).todia()], which lives in another module, and then reach
    the same format check. *)
Inductive ctor_arg : Type :=
| FromDia (A : dia_matrix)
| FromShape (M N : Z)
| FromPair (data_arg : ndarray T) (diags_arg : ndarray Z)
| FromOtherTuple.

Definition diag_count_msg (n m : nat) : string :=
  ("number of diagonals (" ++ decimal n
     ++ ") does not match the number of diags (" ++ decimal m ++ ")")%string.

(** The format check at the end of [__init__]. *)
Definition check_format (A : dia_matrix) : res dia_matrix :=
  if bool_decide (ndim (diags A) ≠ 1%nat)
  then Raise (ValueError "diags array must have rank 1")
  else if bool_decide (ndim (data A) ≠ 2%nat)
  then Raise (ValueError "data array must have rank 2")
  else
    n ← shape_at (data A) 0;
    m ← len (diags A);
    if bool_decide (n ≠ m)
    then Raise (ValueError (diag_count_msg n m))
    else if bool_decide (length (unique (ravel (diags A))) ≠ m)
    then Raise (ValueError "offset array contains duplicate values")
    else Ret A.

(** Modelled from the spec: [self.shape = ...] goes through the shape
    setter of the base class, which is in another module ("spmatrix checks
    for errors here").  The design document has it fail "with InvalidShape
    if rows/cols are not non-negative integers". *)
Definition set_shape (s : Z * Z) : res (Z * Z) :=
  if (0 <=? s.1) && (0 <=? s.2) then Ret s else Raise InvalidShape.

Definition __init__ (arg1 : ctor_arg) (shape_arg : option (Z * Z))
  : res dia_matrix :=
  A ← match arg1 with
      | FromDia A0 =>
          s ← set_shape (shape A0);
          Ret {| data := data A0; diags := diags A0; shape := s |}
      | FromShape M N =>
          s ← set_shape (M, N);
          Ret {| data := Nd2 0 []; diags := Nd1 []; shape := s |}
      | FromPair data_arg diags_arg =>
          match shape_arg with
          | None => Raise (ValueError "expected a shape argument")
          | Some shape_arg =>
              s ← set_shape shape_arg;
              Ret {| data := atleast_2d data_arg;
                     diags := atleast_1d (map_array intc diags_arg);
                     shape := s |}
          end
      | FromOtherTuple =>
          Raise (ValueError "unrecognized form for dia_matrix constructor")
      end;
  check_format A.

Definition getnnz (A : dia_matrix) : res Z :=
  let '(M, N) := shape A in
  ks ← scalars (diags A);
  Ret (fold_left
         (fun nnz k => if 0 <? k then nnz + Z.min M (N - k)
                       else nnz + Z.min (M + k) N)
         ks 0).

(** [__mul__] returns a matrix of this format for a scalar and a dense
    array otherwise. *)
Inductive product : Type :=
| Scaled (A : dia_matrix)
| DenseProduct (y : ndarray T).

(** One turn of the loop of [matvec] over [zip(self.data, self.diags)]: the
    state is the pair of the arrays [y] and [temp], both of shape [(M, P)];
    [multiply] and [add] write through views of them. *)
Definition matvec_step (M N : Z) (L P : nat) (x : ndarray T)
    (st : list (list T) * list (list T)) (dk : list T * Z)
  : res (list (list T) * list (list T)) :=
  let '(y, temp) := st in
  let '(diag, k) := dk in
  let j_start := Z.max 0 k in
  let j_end := Z.min (Z.min (M + k) N) (Z.of_nat L) in
  let i_start := Z.max 0 (- k) in
  let i_end := i_start + (j_end - j_start) in
  xs ← slice0 x j_start j_end;
  prod ← ufunc2 zero mul (column (slice diag j_start j_end)) xs
            (length (slice temp i_start i_end)) P;
  let temp' := slice_assign temp i_start i_end prod in
  sum ← ufunc2 zero add (Nd2 P (slice y i_start i_end))
           (Nd2 P (slice temp' i_start i_end))
           (length (slice y i_start i_end)) P;
  Ret (slice_assign y i_start i_end sum, temp').

(** [matvec]: the operand [other] is a dense array ([asarray] of it); the
    [numpy.matrix] wrapper of the result, which changes no element, is left
    out. *)
Definition matvec (self : dia_matrix) (other : ndarray T) : res (ndarray T) :=
  let x := match other with Nd1 xs => column xs | _ => other end in
  x0 ← shape_at x 0;
  if bool_decide ((shape self).2 ≠ Z.of_nat x0)
  then Raise (ValueError "dimension mismatch")
  else
    P ← shape_at x 1;
    y ← full zero (shape self).1 P;
    temp ← full junk (shape self).1 P;
    L ← shape_at (data self) 1;
    let '(M, N) := shape self in
    '(_, rows) ← matrix_rows (data self);
    ks ← scalars (diags self);
    '(y', _) ← for_each (matvec_step M N L P x) (zip rows ks) (y, temp);
    Ret (if bool_decide (ndim other = 1%nat) then Nd1 (concat y') else Nd2 P y').

(** [matmat] with a dense operand: "matvec handles multiple columns". *)
Definition matmat (self : dia_matrix) (other : ndarray T) : res (ndarray T) :=
  matvec self other.

(** Modelled from the spec: [dot] is inherited from the base class, which is
    in another module.  For a dense operand it "treats operand as a dense
    vector or dense matrix" and "returns the dense product", that is, it
    ends in [matvec], directly or through [matmat]. *)
Definition dot (self : dia_matrix) (other : ndarray T) : res (ndarray T) :=
  matmat self other.

(** [__mul__]: scalars and 0-d arrays are "scalar-like". *)
Definition __mul__ (self : dia_matrix) (other : ndarray T) : res product :=
  match other with
  | Nd0 s =>
      A ← __init__ (FromPair (map_array (mul s) (data self)) (diags self))
            (Some (shape self));
      Ret (Scaled A)
  | _ => y ← dot self other; Ret (DenseProduct y)
  end.

Fixpoint enumerate_from {X : Type} (i : nat) (l : list X) : list (nat * X) :=
  match l with
  | [] => []
  | x :: l' => (i, x) :: enumerate_from (S i) l'
  end.

Definition enumerate {X : Type} (l : list X) : list (nat * X) :=
  enumerate_from 0 l.

(** [row[i,:] -= k] *)
Definition shift_row (row : list (list Z)) (ik : nat * Z) : res (list (list Z)) :=
  let '(i, k) := ik in
  if bool_decide (i < length row)%nat
  then Ret (alter (fmap (M:=list) (fun v => v - k)) i row)
  else Raise (IndexError "index out of bounds").

Definition tocoo (self : dia_matrix) : res coo_matrix :=
  num_data ← len (data self);
  len_data ← shape_at (data self) 1;
  let row := replicate num_data (arange len_data) in
  let col := row in
  ks ← scalars (diags self);
  row ← for_each shift_row (enumerate ks) row;
  let mask :=
    zip_with (zip_with (fun r c =>
                (0 <=? r) && (r <? (shape self).1) && (c <? (shape self).2)))
      row col in
  '(_, rows) ← matrix_rows (data self);
  Ret {| coo_data := select mask rows;
         coo_row := select mask row;
         coo_col := select mask col;
         coo_shape := shape self |}.

(** [_with_data]: arrays are values here, so a copy of [diags] is [diags]. *)
Definition _with_data (self : dia_matrix) (new_data : ndarray T) (copy : bool)
  : res dia_matrix :=
  if copy
  then __init__ (FromPair new_data (diags self)) (Some (shape self))
  else __init__ (FromPair new_data (diags self)) (Some (shape self)).

End DiaMatrix.

Arguments dia_matrix : clear implicits.
Arguments coo_matrix : clear implicits.
Arguments ctor_arg : clear implicits.
Arguments product : clear implicits.

(** ** Examples from the docstring, on integer elements *)

Module ZExamples.

Definition A44 : dia_matrix Z :=
  {| data := Nd2 4 [[1;2;3;4]; [1;2;3;4]; [1;2;3;4]];
     diags := Nd1 [0; -1; 2];
     shape := (4, 4) |}.

End ZExamples.

Import ZExamples.

(** * Vocabulary of the properties *)

Fixpoint increasing (s : list Z) : Prop :=
  match s with
  | [] => True
  | h :: t => Forall (Z.lt h) t /\ increasing t
  end.

(** Values of type C int are unchanged by a cast to C int. *)
Definition is_intc (k : Z) : Prop := - 2 ^ 31 <= k < 2 ^ 31.

(** The element mapping: column [c] of the strip of offset [k] stands for the
    matrix entry [(c - k, c)], and is live when that position lies in the
    [M] by [N] matrix.  [c] itself ranges over the strip. *)
Definition live (M N k c : Z) : Prop := 0 <= c - k < M /\ c < N.

#[global] Instance live_dec M N k c : Decision (live M N k c).
Proof. unfold live. apply _. Defined.

(** The errors of the format check ("MalformedStructure" in the design
    document). *)
Inductive MalformedStructure : exn -> Prop :=
| Malformed_diags_rank :
    MalformedStructure (ValueError "diags array must have rank 1")
| Malformed_data_rank :
    MalformedStructure (ValueError "data array must have rank 2")
| Malformed_count n m :
    n <> m -> MalformedStructure (ValueError (diag_count_msg n m))
| Malformed_duplicate :
    MalformedStructure (ValueError "offset array contains duplicate values").

(** The shapes that the shape setter accepts. *)
Definition shape_ok (s : Z * Z) : Prop := 0 <= s.1 /\ 0 <= s.2.

Definition sumZ (l : list Z) : Z := foldr Z.add 0 l.

(** What [getnnz] adds for the offset [k]. *)
Definition diag_nnz (M N k : Z) : Z :=
  if 0 <? k then Z.min M (N - k) else Z.min (M + k) N.

(** The count as the design document words it: the ideal length of each
    diagonal, "floored at zero". *)
Definition live_length (M N k : Z) : Z :=
  Z.max 0 (if 0 <=? k then Z.min M (N - k) else Z.min (M + k) N).

Definition nnz_spec (M N : Z) (ks : list Z) : Z := sumZ (live_length M N <$> ks).

(** The number of live entries that a strip of width [L] holds for the
    offset [k]. *)
Definition stored_length (M N : Z) (L : nat) (k : Z) : Z :=
  Z.max 0 (Z.min (Z.min (M + k) N) (Z.of_nat L) - Z.max 0 k).

(** The window of the offset [k] is well formed: [j_start <= j_end]. *)
Definition window_ok (M N : Z) (L : nat) (k : Z) : Prop :=
  Z.max 0 k <= Z.min (Z.min (M + k) N) (Z.of_nat L).

Arguments sumZ : simpl never.

Section Vocabulary.
Context {T : Type} {DT : Dtype T}.
Implicit Types (A : dia_matrix T) (D x rows : list (list T)) (ks : list Z).

(** The structural invariants that [__init__] checks: [diags] has rank 1,
    [data] has rank 2, [data] has one row per offset, and no offset is
    repeated. *)
Record format_ok A : Prop := FormatOk {
  ok_diags_rank : ndim (diags A) = 1%nat;
  ok_data_rank : ndim (data A) = 2%nat;
  ok_count : shape_of (data A) !! 0%nat = shape_of (diags A) !! 0%nat;
  ok_nodup : NoDup (ravel (diags A))
}.

(** The instances that the constructor can produce from the argument forms
    above: a matrix is built from a shape, from a [(data, diags)] pair, or
    from an instance built before. *)
Inductive constructed : dia_matrix T -> Prop :=
| constructed_shape M N shape_arg A :
    __init__ (FromShape M N) shape_arg = Ret A -> constructed A
| constructed_pair d o shape_arg A :
    __init__ (FromPair d o) shape_arg = Ret A -> constructed A
| constructed_dia A0 shape_arg A :
    constructed A0 -> __init__ (FromDia A0) shape_arg = Ret A -> constructed A.

(** The live entries of one diagonal, as [(row, column, value)] triples in
    the order of the strip. *)
Definition diag_entries (M N k : Z) (drow : list T) : list (Z * Z * T) :=
  (fun cv => (cv.1 - k, cv.1, cv.2))
    <$> filter (fun cv => live M N k cv.1) (zip (arange (length drow)) drow).

(** The live entries of all diagonals, diagonal by diagonal. *)
Definition entries (M N : Z) (ks : list Z) (rows : list (list T))
  : list (Z * Z * T) :=
  concat (zip_with (diag_entries M N) ks rows).

Definition coo_of_entries (ent : list (Z * Z * T)) (s : Z * Z) : coo_matrix T :=
  {| coo_data := (fun e => e.2) <$> ent;
     coo_row := (fun e => e.1.1) <$> ent;
     coo_col := (fun e => e.1.2) <$> ent;
     coo_shape := s |}.

(** The triples of a matrix in coordinate format. *)
Definition coo_triples (C : coo_matrix T) : list (Z * Z * T) :=
  zip (zip (coo_row C) (coo_col C)) (coo_data C).

Definition mask_row (M N k : Z) (cs : list Z) : list bool :=
  zip_with (fun r c => (0 <=? r) && (r <? M) && (c <? N))
    ((fun v => v - k) <$> cs) cs.

(** [D[r, c] = v] for a position given by non-negative indices; a position
    outside [D] is not stored. *)
Definition store D (e : Z * Z * T) : list (list T) :=
  if bool_decide (0 <= e.1.1 /\ 0 <= e.1.2)
  then alter (<[Z.to_nat e.1.2 := e.2]>) (Z.to_nat e.1.1) D
  else D.

Definition zeros (M N : Z) : list (list T) :=
  replicate (Z.to_nat M) (replicate (Z.to_nat N) zero).

(** Modelled from the spec: the dense matrix rebuilt from a coordinate
    export ([coo_matrix] and its [todense] live in another module): every
    [(row, column, value)] triple is stored at its position in a zero
    matrix of the exported shape. *)
Definition dense_of_coo (C : coo_matrix T) : list (list T) :=
  fold_left store (coo_triples C) (zeros (coo_shape C).1 (coo_shape C).2).

(** Modelled from the spec: the dense matrix "obtained by directly walking
    diagonals": for the diagonal of offset [k] and every column [c] of its
    strip, the value [data[i][c]] is stored at [(c - k, c)] when that entry
    is live. *)
Definition walk_diagonal (M N : Z) D (kd : Z * list T) : list (list T) :=
  fold_left
    (fun D cv => if bool_decide (live M N kd.1 cv.1)
                 then store D (cv.1 - kd.1, cv.1, cv.2) else D)
    (zip (arange (length kd.2)) kd.2) D.

Definition dense_of_diagonals (M N : Z) ks rows : list (list T) :=
  fold_left (walk_diagonal M N) (zip ks rows) (zeros M N).

Definition at2 x (i p : nat) : T := default zero (x !! i ≫= (.!! p)).

(** What one diagonal adds to the element [(r, p)] of the product:
    [data[i, j] * x[j, p]] for the column [j] that the window pairs with row
    [r], when the window [j_start .. j_end] is not empty and covers [r]. *)
Definition accumulate (M N : Z) (L : nat) x (r p : nat) (acc : T)
    (dk : list T * Z) : T :=
  let k := dk.2 in
  let j_start := Z.max 0 k in
  let j_end := Z.min (Z.min (M + k) N) (Z.of_nat L) in
  let i_start := Z.max 0 (- k) in
  let i_end := i_start + (j_end - j_start) in
  if bool_decide (j_start < j_end /\ i_start <= Z.of_nat r < i_end)
  then let j := Z.to_nat (j_start + (Z.of_nat r - i_start)) in
       add acc (mul (default zero (dk.1 !! j)) (at2 x j p))
  else acc.

(** The product as the design document defines it: a zero matrix of shape
    [(M, P)] to which the diagonals are added one after the other. *)
Definition matvec_spec (M N : Z) (L P : nat) rows ks x : list (list T) :=
  tabulate2 (Z.to_nat M) P
    (fun r p => fold_left (accumulate M N L x r p) (zip rows ks) zero).


End Vocabulary.

(** * Properties *)

(** ** Facts about the numpy fragment *)

Lemma elem_of_insert_unique (k x : Z) (s : list Z) :
  x ∈ insert_unique k s <-> x = k \/ x ∈ s.
Proof.
  induction s as [|h t IH]; simpl.
  - rewrite list_elem_of_singleton, elem_of_nil. tauto.
  - destruct (Z.ltb_spec k h); [by rewrite elem_of_cons|].
    destruct (Z.eqb_spec k h) as [->|Hne].
    + rewrite elem_of_cons. tauto.
    + rewrite !elem_of_cons, IH. tauto.
Qed.

Lemma increasing_insert_unique (k : Z) (s : list Z) :
  increasing s -> increasing (insert_unique k s).
Proof.
  induction s as [|h t IH]; simpl; [auto|].
  intros [Hh Ht].
  destruct (Z.ltb_spec k h).
  - simpl. repeat split; [|done..].
    constructor; [done|]. eapply Forall_impl; [exact Hh|]. simpl. lia.
  - destruct (Z.eqb_spec k h); [done|].
    simpl. split; [|auto].
    apply Forall_forall. intros x Hx.
    apply elem_of_insert_unique in Hx as [->|Hx]; [lia|].
    by eapply Forall_forall in Hh.
Qed.

Lemma length_insert_unique (k : Z) (s : list Z) :
  increasing s ->
  length (insert_unique k s)
  = if decide (k ∈ s) then length s else S (length s).
Proof.
  induction s as [|h t IH]; simpl.
  - intros _. destruct (decide (k ∈ [])) as [Hk|]; [|done].
    by apply elem_of_nil in Hk.
  - intros [Hh Ht].
    destruct (decide (k ∈ h :: t)) as [Hin|Hnin].
    + apply elem_of_cons in Hin.
      destruct (Z.ltb_spec k h).
      * exfalso. destruct Hin as [->|Hk]; [lia|].
        eapply Forall_forall in Hh; [|exact Hk]. lia.
      * destruct (Z.eqb_spec k h) as [->|Hne]; [done|].
        simpl. rewrite IH by done.
        destruct Hin as [?|Hk]; [done|]. by destruct (decide (k ∈ t)).
    + rewrite not_elem_of_cons in Hnin. destruct Hnin as [Hne Hnt].
      destruct (Z.ltb_spec k h); [done|].
      destruct (Z.eqb_spec k h); [done|].
      simpl. rewrite IH by done. by destruct (decide (k ∈ t)).
Qed.

Lemma increasing_unique (ks : list Z) : increasing (unique ks).
Proof.
  induction ks; simpl; [done|]. by apply increasing_insert_unique.
Qed.

Lemma elem_of_unique (x : Z) (ks : list Z) : x ∈ unique ks <-> x ∈ ks.
Proof.
  induction ks as [|k ks IH]; simpl; [done|].
  rewrite elem_of_insert_unique, elem_of_cons, IH. tauto.
Qed.

Lemma length_unique_le (ks : list Z) : (length (unique ks) <= length ks)%nat.
Proof.
  induction ks as [|k ks IH]; simpl; [done|].
  rewrite length_insert_unique by apply increasing_unique.
  destruct (decide _); lia.
Qed.

(** [len(unique(a)) == len(a)] tests that [a] has no repeated value. *)
Lemma length_unique_NoDup (ks : list Z) :
  length (unique ks) = length ks <-> NoDup ks.
Proof.
  induction ks as [|k ks IH]; simpl.
  - split; [constructor|done].
  - rewrite length_insert_unique by apply increasing_unique.
    rewrite NoDup_cons, <- IH, <- (elem_of_unique k ks).
    pose proof (length_unique_le ks).
    destruct (decide (k ∈ unique ks)); split; intros; try tauto; try lia.
    split; [done|lia].
Qed.

Lemma ravel_map_array {A B : Type} (f : A -> B) (a : ndarray A) :
  ravel (map_array f a) = fmap (M:=list) f (ravel a).
Proof.
  destruct a as [x|xs|c rows|d0 d1 d2 rest flat]; simpl; try done.
  induction rows as [|r rows IH]; simpl; [done|].
  rewrite fmap_app. f_equal. exact IH.
Qed.

Lemma shape_of_map_array {A B : Type} (f : A -> B) (a : ndarray A) :
  shape_of (map_array f a) = shape_of a.
Proof. destruct a; simpl; by rewrite ?length_fmap. Qed.

Lemma ndim_map_array {A B : Type} (f : A -> B) (a : ndarray A) :
  ndim (map_array f a) = ndim a.
Proof. unfold ndim. by rewrite shape_of_map_array. Qed.

Lemma ravel_atleast_1d {A : Type} (a : ndarray A) :
  ravel (atleast_1d a) = ravel a.
Proof. by destruct a. Qed.

Lemma ndim_1_inv {A : Type} (a : ndarray A) :
  ndim a = 1%nat -> exists xs, a = Nd1 xs.
Proof. destruct a; try done. by eexists. Qed.

Lemma ndim_2_inv {A : Type} (a : ndarray A) :
  ndim a = 2%nat -> exists c rows, a = Nd2 c rows.
Proof. destruct a; try done. by do 2 eexists. Qed.

Lemma fmap_fixed {A : Type} (f : A -> A) (l : list A) :
  Forall (fun x => f x = x) l -> f <$> l = l.
Proof. induction 1 as [|x l Hx _ IH]; csimpl; [done|]. by rewrite Hx, IH. Qed.

Lemma map_array_fixed {A : Type} (f : A -> A) (a : ndarray A) :
  Forall (fun x => f x = x) (ravel a) -> map_array f a = a.
Proof.
  destruct a as [x|xs|c rows|d0 d1 d2 rest flat]; simpl; intros H.
  - apply Forall_cons in H as [-> _]. done.
  - by rewrite fmap_fixed.
  - f_equal. induction rows as [|r rows IH]; csimpl in *; [done|].
    apply Forall_app in H as [H1 H2]. by rewrite fmap_fixed, IH.
  - by rewrite fmap_fixed.
Qed.

Lemma map_array_id {A : Type} (f : A -> A) (a : ndarray A) :
  (forall x, f x = x) -> map_array f a = a.
Proof. intros Hf. apply map_array_fixed, Forall_forall. auto. Qed.

Lemma intc_range (k : Z) : is_intc (intc k).
Proof.
  unfold is_intc, intc.
  pose proof (Z.mod_pos_bound (k + 2 ^ 31) (2 ^ 32) ltac:(lia)). lia.
Qed.

Lemma intc_fixed (k : Z) : is_intc k -> intc k = k.
Proof.
  unfold is_intc, intc. intros H.
  rewrite Z.mod_small by lia. lia.
Qed.

Lemma bind_Ret_inv {A B : Type} (m : res A) (k : A -> res B) (b : B) :
  m ≫= k = Ret b -> exists a, m = Ret a /\ k a = Ret b.
Proof. destruct m as [a|e]; simpl; [eauto|done]. Qed.

Lemma set_shape_ok (s : Z * Z) : shape_ok s -> set_shape s = Ret s.
Proof.
  intros [H1 H2]. unfold set_shape.
  apply Z.leb_le in H1. apply Z.leb_le in H2. by rewrite H1, H2.
Qed.

Lemma set_shape_Ret (s s' : Z * Z) : set_shape s = Ret s' -> s' = s /\ shape_ok s.
Proof.
  unfold set_shape, shape_ok.
  destruct (Z.leb_spec 0 s.1), (Z.leb_spec 0 s.2); simpl; try done.
  by intros [= <-].
Qed.

Lemma set_shape_Raise (s : Z * Z) (e : exn) :
  set_shape s = Raise e -> e = InvalidShape /\ ~ shape_ok s.
Proof.
  unfold set_shape, shape_ok.
  destruct (Z.leb_spec 0 s.1), (Z.leb_spec 0 s.2); simpl; try done;
    intros [= <-]; split; try done; lia.
Qed.

(** ** The constructor and its format check *)

Section Constructor.
Context {T : Type}.
Implicit Types (A : dia_matrix T) (e : exn).

(** The matrices in normal form: [K] diagonals stored in strips of width
    [L]. *)
Lemma format_ok_inv A :
  format_ok A ->
  exists L rows ks s,
    A = DiaMatrix (Nd2 L rows) (Nd1 ks) s
    /\ length rows = length ks /\ NoDup ks.
Proof.
  destruct A as [d o s]. intros [H1 H2 H3 H4]. simpl in *.
  apply ndim_1_inv in H1 as [ks ->]. apply ndim_2_inv in H2 as (L & rows & ->).
  simpl in *. exists L, rows, ks, s. repeat split; [congruence|done].
Qed.

Lemma format_ok_intro (L : nat) (rows : list (list T)) (ks : list Z) s :
  length rows = length ks -> NoDup ks ->
  format_ok (DiaMatrix (Nd2 L rows) (Nd1 ks) s).
Proof. intros Hlen Hnd. split; simpl; [done..|by rewrite Hlen|done]. Qed.

Lemma check_format_ok A : format_ok A -> check_format A = Ret A.
Proof.
  intros H.
  destruct (format_ok_inv A H) as (L & rows & ks & s & -> & Hlen & Hnd).
  apply length_unique_NoDup in Hnd.
  unfold check_format. simpl.
  repeat (case_bool_decide; try done).
Qed.

Lemma check_format_Ret A A' : check_format A = Ret A' -> A' = A /\ format_ok A.
Proof.
  unfold check_format.
  case_bool_decide as H1; [done|]. case_bool_decide as H2; [done|].
  destruct (ndim_1_inv _ H1) as [ks Hks].
  destruct (ndim_2_inv _ H2) as (L & rows & Hrows).
  rewrite Hks, Hrows. simpl.
  case_bool_decide as H3; [done|]. case_bool_decide as H4; [done|].
  intros [= <-]. split; [done|].
  split; rewrite ?Hks, ?Hrows; simpl; [done..|by rewrite H3|].
  by apply length_unique_NoDup.
Qed.

Lemma check_format_Raise A e : check_format A = Raise e -> MalformedStructure e.
Proof.
  unfold check_format.
  case_bool_decide as H1; [intros [= <-]; constructor|].
  case_bool_decide as H2; [intros [= <-]; constructor|].
  destruct (ndim_1_inv _ H1) as [ks ->].
  destruct (ndim_2_inv _ H2) as (L & rows & ->). simpl.
  case_bool_decide as H3; [intros [= <-]; by constructor|].
  case_bool_decide as H4; [intros [= <-]; constructor|done].
Qed.

(** Duplicate offsets never pass the check. *)
Lemma check_format_duplicate A :
  ~ NoDup (ravel (diags A)) -> exists e, check_format A = Raise e.
Proof.
  intros Hdup. destruct (check_format A) as [A'|e] eqn:E; [|by eexists].
  apply check_format_Ret in E as [_ [_ _ _ Hnd]]. done.
Qed.

(** The outcome of the constructor, by argument form: what it returns
    passed the shape setter and the format check. *)
Lemma init_Ret arg1 shape_arg A :
  __init__ arg1 shape_arg = Ret A ->
  format_ok A /\ shape_ok (shape A)
  /\ match arg1 with
     | FromDia A0 => A = A0
     | FromShape M N => A = DiaMatrix (Nd2 0 []) (Nd1 []) (M, N)
     | FromPair d o =>
         exists s, shape_arg = Some s
                   /\ A = DiaMatrix (atleast_2d d) (atleast_1d (map_array intc o)) s
     | FromOtherTuple => False
     end.
Proof.
  unfold __init__. intros H. apply bind_Ret_inv in H as (A1 & H1 & H2).
  apply check_format_Ret in H2 as [-> Hok].
  destruct arg1 as [A0|M N|d o|].
  - apply bind_Ret_inv in H1 as (s & Hs & E). injection E as <-.
    apply set_shape_Ret in Hs. destruct Hs as [-> Hs]. by destruct A0.
  - apply bind_Ret_inv in H1 as (s & Hs & E). injection E as <-.
    apply set_shape_Ret in Hs. destruct Hs as [-> Hs]. done.
  - destruct shape_arg as [s0|]; [|done].
    apply bind_Ret_inv in H1 as (s & Hs & E). injection E as <-.
    apply set_shape_Ret in Hs. destruct Hs as [-> Hs]. split; [done|]. split; [done|]. by exists s0.
  - done.
Qed.

(** Whatever the argument form, a matrix that [__init__] returns went
    through the format check. *)
Lemma init_format_ok arg1 shape_arg A :
  __init__ arg1 shape_arg = Ret A -> format_ok A.
Proof. intros H. by apply init_Ret in H as [? _]. Qed.

Lemma init_shape_ok arg1 shape_arg A :
  __init__ arg1 shape_arg = Ret A -> shape_ok (shape A).
Proof. intros H. by apply init_Ret in H as (_ & ? & _). Qed.

Lemma init_pair_Ret d o s A :
  __init__ (FromPair d o) (Some s) = Ret A ->
  A = DiaMatrix (atleast_2d d) (atleast_1d (map_array intc o)) s.
Proof.
  intros H. apply init_Ret in H as (_ & _ & s' & E & ->). by injection E as <-.
Qed.

Lemma init_pair_normal (L : nat) (rows : list (list T)) (ks : list Z) s :
  shape_ok s ->
  length rows = length ks -> NoDup ks -> Forall is_intc ks ->
  __init__ (FromPair (Nd2 L rows) (Nd1 ks)) (Some s)
  = Ret (DiaMatrix (Nd2 L rows) (Nd1 ks) s).
Proof.
  intros Hs Hlen Hnd Hint. unfold __init__.
  rewrite set_shape_ok by done. simpl.
  rewrite fmap_fixed by (eapply Forall_impl; [exact Hint|apply intc_fixed]).
  by apply check_format_ok, format_ok_intro.
Qed.

(** A constructed matrix satisfies the format invariants, and its offsets
    are C ints. *)
Lemma constructed_inv A :
  constructed A -> format_ok A /\ Forall is_intc (ravel (diags A)).
Proof.
  induction 1 as [M N sa A E|d o sa A E|A0 sa A _ IH E];
    (split; [by eapply init_format_ok|]).
  - apply init_Ret in E as (_ & _ & ->). constructor.
  - apply init_Ret in E as (_ & _ & s & _ & ->). simpl.
    rewrite ravel_atleast_1d, ravel_map_array.
    apply Forall_fmap, Forall_forall. intros k _. apply intc_range.
  - apply init_Ret in E as (_ & _ & ->). apply IH.
Qed.

(** Its shape passed the shape setter. *)
Lemma constructed_shape_ok A : constructed A -> shape_ok (shape A).
Proof. destruct 1; by eapply init_shape_ok. Qed.

End Constructor.

Section ConstructorProperties.
Context {T : Type} {DT : Dtype T}.
Implicit Types (A self : dia_matrix T).

(** C7. A [(data, diags)] pair whose offsets contain a repeated value is
    never turned into a matrix: the constructor raises, and when a shape
    that the shape setter accepts is given the exception is one of the
    format check (for rank-1 offsets next to matching rank-2 data it is
    "offset array contains duplicate values"); nothing is deduplicated.
    Without a shape, or with a shape that the setter refuses, the
    constructor stops before the format check, with "expected a shape
    argument" or [InvalidShape]. *)
Theorem init_rejects_duplicate_offsets
    (data_arg : ndarray T) (diags_arg : ndarray Z) (shape_arg : option (Z * Z)) :
  ~ NoDup (ravel diags_arg) ->
  exists e,
    __init__ (FromPair data_arg diags_arg) shape_arg = Raise e
    /\ (forall s, shape_arg = Some s -> shape_ok s -> MalformedStructure e)
    /\ (forall s, shape_arg = Some s -> ~ shape_ok s -> e = InvalidShape)
    /\ (shape_arg = None -> e = ValueError "expected a shape argument").
Proof.
  intros Hdup. destruct shape_arg as [s|]; [|by eexists].
  unfold __init__.
  destruct (set_shape s) as [s'|e0] eqn:Es.
  - apply set_shape_Ret in Es as [-> Hs]. simpl.
    destruct (check_format (T:=T) _) as [A|e] eqn:E.
    + exfalso. apply check_format_Ret in E as [_ [_ _ _ Hnd]]. simpl in Hnd.
      rewrite ravel_atleast_1d, ravel_map_array in Hnd.
      by apply NoDup_fmap_1 in Hnd.
    + exists e. split; [done|]. split; [|split]; [| |done].
      * intros _ _ _. by eapply check_format_Raise.
      * intros s0 [= <-] Hno. done.
  - apply set_shape_Raise in Es as [-> Hno]. exists InvalidShape. simpl.
    split; [done|]. split; [|split]; [| |done].
    + intros s0 [= <-] Hs. done.
    + done.
Qed.

(** With matching row counts the exception is the duplicate-offset one. *)
Lemma init_duplicate_message (L : nat) (rows : list (list T)) (ks : list Z) s :
  shape_ok s ->
  length rows = length ks -> ~ NoDup ks ->
  __init__ (FromPair (Nd2 L rows) (Nd1 ks)) (Some s)
  = Raise (ValueError "offset array contains duplicate values").
Proof.
  intros Hs Hlen Hdup. unfold __init__. rewrite set_shape_ok by done.
  unfold check_format. simpl. rewrite length_fmap.
  case_bool_decide as H1; [done|]. case_bool_decide as H2; [done|].
  exfalso. apply Hdup. apply (NoDup_fmap_1 intc).
  apply length_unique_NoDup. by rewrite length_fmap.
Qed.

(** C6. Multiplying a constructed matrix by a scalar returns the matrix
    whose data is the original data with every element multiplied by the
    scalar, with the same offsets and shape; a scalar that is a left
    identity of the multiplication returns the matrix unchanged. *)
Theorem mul_scalar_scales_data A (s : T) :
  constructed A ->
  __mul__ A (Nd0 s)
  = Ret (Scaled (DiaMatrix (map_array (mul s) (data A)) (diags A) (shape A)))
  /\ ((forall v, mul s v = v) -> __mul__ A (Nd0 s) = Ret (Scaled A)).
Proof.
  intros HA. pose proof (constructed_shape_ok A HA) as Hsh.
  apply constructed_inv in HA as [Hok Hint].
  destruct (format_ok_inv A Hok) as (L & rows & ks & sh & -> & Hlen & Hnd).
  simpl in Hint, Hsh. cbn [data diags shape].
  assert (E : __mul__ (DiaMatrix (Nd2 L rows) (Nd1 ks) sh) (Nd0 s)
    = Ret (Scaled (DiaMatrix (map_array (mul s) (Nd2 L rows)) (Nd1 ks) sh))).
  { unfold __mul__. cbn [data diags shape map_array].
    rewrite init_pair_normal; [done|done|by rewrite length_fmap|done..]. }
  split; [exact E|].
  intros Hone. rewrite E. by rewrite map_array_id.
Qed.

End ConstructorProperties.

Lemma init_rejects_duplicate_offsets_witness :
  exists e,
    __init__ (FromPair (Nd2 4 [[1;2;3;4]; [5;6;7;8]]) (Nd1 [0; 0])) (Some (4, 4))
    = Raise e
    /\ MalformedStructure e.
Proof.
  destruct (init_rejects_duplicate_offsets (T:=Z)
              (Nd2 4 [[1;2;3;4]; [5;6;7;8]]) (Nd1 [0; 0]) (Some (4, 4)))
    as (e & He & Hm & _).
  - simpl. intros H. apply NoDup_cons in H as [H _]. apply H. by left.
  - exists e. split; [exact He|]. apply (Hm (4, 4) eq_refl).
    unfold shape_ok. simpl. lia.
Defined.

Lemma mul_scalar_scales_data_witness :
  __mul__ A44 (Nd0 3)
  = Ret (Scaled (DiaMatrix (Nd2 4 [[3;6;9;12]; [3;6;9;12]; [3;6;9;12]])
                   (Nd1 [0; -1; 2]) (4, 4)))
  /\ __mul__ A44 (Nd0 1) = Ret (Scaled A44).
Proof.
  assert (HA : constructed A44).
  { by apply (constructed_pair (Nd2 4 [[1;2;3;4]; [1;2;3;4]; [1;2;3;4]])
                (Nd1 [0; -1; 2]) (Some (4, 4))). }
  split.
  - exact (proj1 (mul_scalar_scales_data A44 3 HA)).
  - apply (proj2 (mul_scalar_scales_data A44 1 HA)).
    intros v. by destruct v.
Defined.

(** ** Matrices returned by the public operations *)

Section Returned.
Context {T : Type} {DT : Dtype T}.
Implicit Types (A self : dia_matrix T).

(** C10. A matrix of this format returned by [__mul__] (the scalar case) or
    by [_with_data] satisfies the structural invariants (rank-1 offsets,
    rank-2 data, one data row per offset, no repeated offset) and has the
    shape of [self]: both are built by [__init__] and pass its check. *)
Theorem returned_matrix_format_ok self (A' : dia_matrix T) :
  (exists other, __mul__ self other = Ret (Scaled A'))
  \/ (exists new_data copy, _with_data self new_data copy = Ret A') ->
  format_ok A' /\ shape A' = shape self.
Proof.
  intros [[other H]|(new_data & copy & H)].
  - unfold __mul__ in H.
    assert (exists s, __init__ (FromPair (map_array (mul s) (data self)) (diags self))
                        (Some (shape self)) = Ret A') as [s Hs].
    { destruct other as [s| | |]; apply bind_Ret_inv in H as (a & Ha & E);
        try done.
      exists s. by injection E as ->. }
    split; [by eapply init_format_ok|].
    by rewrite (init_pair_Ret _ _ _ _ Hs).
  - assert (__init__ (FromPair new_data (diags self)) (Some (shape self)) = Ret A')
      as Hs by (by destruct copy).
    split; [by eapply init_format_ok|].
    by rewrite (init_pair_Ret _ _ _ _ Hs).
Qed.

(** C8. A dense operand of rank at least 1 whose leading dimension differs
    from the column count of the matrix is refused with "dimension
    mismatch", by [matvec] and by [__mul__], before any output exists. *)
Theorem matvec_dimension_mismatch self (other : ndarray T) (n : nat) :
  shape_of other !! 0%nat = Some n ->
  (shape self).2 <> Z.of_nat n ->
  matvec self other = Raise (ValueError "dimension mismatch")
  /\ __mul__ self other = Raise (ValueError "dimension mismatch").
Proof.
  intros Hn Hne.
  assert (E : matvec self other = Raise (ValueError "dimension mismatch")).
  { unfold matvec.
    assert (shape_at (match other with Nd1 xs => column xs | _ => other end) 0
            = Ret n) as ->.
    { unfold shape_at, column.
      destruct other as [x|xs|c rows|d0 d1 d2 rest flat]; simpl in *;
        rewrite ?length_fmap; by simplify_eq. }
    simpl. by rewrite bool_decide_eq_true_2. }
  split; [exact E|].
  unfold __mul__, dot, matmat.
  destruct other; [done|by rewrite E..].
Qed.

End Returned.

Lemma returned_matrix_format_ok_witness :
  format_ok (DiaMatrix (Nd2 4 [[3;6;9;12]; [3;6;9;12]; [3;6;9;12]])
               (Nd1 [0; -1; 2]) (4, 4))
  /\ format_ok (DiaMatrix (Nd2 2 [[7;8]; [9;10]; [11;12]]) (Nd1 [0; -1; 2]) (4, 4)).
Proof.
  split.
  - refine (proj1 (returned_matrix_format_ok A44 _ _)).
    left. exists (Nd0 3). reflexivity.
  - refine (proj1 (returned_matrix_format_ok A44 _ _)).
    right. exists (Nd2 2 [[7;8]; [9;10]; [11;12]]), true. reflexivity.
Defined.

Lemma matvec_dimension_mismatch_witness :
  matvec A44 (Nd1 [1;1;1]) = Raise (ValueError "dimension mismatch")
  /\ __mul__ A44 (Nd1 [1;1;1])
     = Raise (ValueError "dimension mismatch").
Proof.
  apply (matvec_dimension_mismatch A44 (Nd1 [1;1;1]) 3).
  - reflexivity.
  - simpl. lia.
Defined.

(** ** Coordinate export *)

Lemma mask_test_live (M N k c : Z) :
  (0 <=? c - k) && (c - k <? M) && (c <? N) = bool_decide (live M N k c).
Proof.
  unfold live. case_bool_decide as H.
  - destruct H as [[H1 H2] H3].
    apply Z.leb_le in H1. apply Z.ltb_lt in H2. apply Z.ltb_lt in H3.
    by rewrite H1, H2, H3.
  - destruct (Z.leb_spec 0 (c - k)), (Z.ltb_spec (c - k) M), (Z.ltb_spec c N);
      simpl; try done.
    exfalso. apply H. lia.
Qed.

Section Entries.
Context {T : Type}.

Lemma coo_triples_of_entries (ent : list (Z * Z * T)) s :
  coo_triples (coo_of_entries ent s) = ent.
Proof.
  unfold coo_triples. simpl.
  induction ent as [|[[r c] v] ent IH]; csimpl; [done|]. by rewrite IH.
Qed.

Lemma compress_strip (M N k : Z) (cs : list Z) (vs : list T) :
  length cs = length vs ->
  let ent := (fun cv : Z * T => (cv.1 - k, cv.1, cv.2))
               <$> filter (fun cv => live M N k cv.1) (zip cs vs) in
  compress (mask_row M N k cs) vs = (fun e => e.2) <$> ent
  /\ compress (mask_row M N k cs) ((fun v => v - k) <$> cs) = (fun e => e.1.1) <$> ent
  /\ compress (mask_row M N k cs) cs = (fun e => e.1.2) <$> ent.
Proof.
  revert vs. induction cs as [|c cs IH]; intros [|v vs] Hlen; try done.
  injection Hlen as Hlen. specialize (IH vs Hlen). destruct IH as (IH1 & IH2 & IH3).
  unfold mask_row in *. csimpl. rewrite mask_test_live.
  rewrite filter_cons. simpl.
  destruct (decide (live M N k c)) as [Hl|Hl].
  - rewrite bool_decide_eq_true_2 by done. csimpl.
    rewrite IH1, IH2, IH3. done.
  - rewrite bool_decide_eq_false_2 by done. done.
Qed.

End Entries.

Lemma length_arange (n : nat) : length (arange n) = n.
Proof. unfold arange. by rewrite length_fmap, length_seq. Qed.

Lemma for_each_shift_row (ks : list Z) (pre rest : list (list Z)) :
  length rest = length ks ->
  for_each shift_row (enumerate_from (length pre) ks) (pre ++ rest)
  = Ret (pre ++ zip_with (fun k r => (fun v => v - k) <$> r) ks rest).
Proof.
  revert pre rest. induction ks as [|k ks IH]; intros pre [|r rest] Hlen; try done.
  injection Hlen as Hlen. simpl.
  rewrite bool_decide_eq_true_2 by (rewrite length_app; simpl; lia).
  simpl.
  rewrite alter_app_r_alt by lia. rewrite Nat.sub_diag. simpl.
  specialize (IH (pre ++ [(fun v => v - k) <$> r]) rest Hlen).
  rewrite length_app, <- app_assoc in IH. simpl in IH.
  replace (length pre + 1)%nat with (S (length pre)) in IH by lia.
  rewrite IH. by rewrite <- app_assoc.
Qed.

Section Tocoo.
Context {T : Type}.

Lemma select_entries (M N : Z) (L : nat) (ks : list Z) (rows : list (list T)) :
  length rows = length ks ->
  Forall (fun r => length r = L) rows ->
  let col := replicate (length rows) (arange L) in
  let row := zip_with (fun k r => (fun v => v - k) <$> r) ks col in
  let mask :=
    zip_with (zip_with (fun r c => (0 <=? r) && (r <? M) && (c <? N))) row col in
  select mask rows = (fun e => e.2) <$> entries M N ks rows
  /\ select mask row = (fun e => e.1.1) <$> entries M N ks rows
  /\ select mask col = (fun e => e.1.2) <$> entries M N ks rows.
Proof.
  revert rows. induction ks as [|k ks IH]; intros [|drow rows] Hlen Hrows; try done.
  injection Hlen as Hlen. apply Forall_cons in Hrows as [HL Hrows].
  specialize (IH rows Hlen Hrows). simpl in IH. destruct IH as (IH1 & IH2 & IH3).
  unfold select, entries in *. simpl.
  pose proof (compress_strip M N k (arange L) drow) as Hs.
  rewrite length_arange in Hs. specialize (Hs (eq_sym HL)). simpl in Hs.
  destruct Hs as (Hs1 & Hs2 & Hs3).
  unfold mask_row in Hs1, Hs2, Hs3. unfold diag_entries. rewrite HL.
  rewrite !fmap_app, Hs1, Hs2, Hs3, IH1, IH2, IH3. done.
Qed.

(** The export of a matrix in normal form is the list of its live entries,
    in diagonal-major order. *)
Lemma tocoo_entries (M N : Z) (L : nat) (ks : list Z) (rows : list (list T)) :
  length rows = length ks ->
  Forall (fun r => length r = L) rows ->
  tocoo (DiaMatrix (Nd2 L rows) (Nd1 ks) (M, N))
  = Ret (coo_of_entries (entries M N ks rows) (M, N)).
Proof.
  intros Hlen Hrows. unfold tocoo, enumerate. simpl.
  pose proof (for_each_shift_row ks [] (replicate (length rows) (arange L))) as Hfe.
  rewrite length_replicate in Hfe. specialize (Hfe Hlen). simpl in Hfe.
  rewrite Hfe. simpl.
  destruct (select_entries M N L ks rows Hlen Hrows) as (H1 & H2 & H3).
  simpl in H1, H2, H3. unfold coo_of_entries. by rewrite H1, H2, H3.
Qed.

End Tocoo.

Lemma lookup_arange (n j : nat) :
  arange n !! j = if decide (j < n)%nat then Some (Z.of_nat j) else None.
Proof.
  unfold arange. rewrite list_lookup_fmap.
  destruct (decide (j < n)%nat).
  - by rewrite lookup_seq_lt.
  - by rewrite lookup_seq_ge by lia.
Qed.

Lemma elem_of_arange (n : nat) (c : Z) : c ∈ arange n <-> 0 <= c < Z.of_nat n.
Proof.
  unfold arange. rewrite list_elem_of_fmap. split.
  - intros (j & -> & Hj). apply elem_of_seq in Hj. lia.
  - intros Hc. exists (Z.to_nat c). split; [lia|]. apply elem_of_seq. lia.
Qed.

Lemma NoDup_arange (n : nat) : NoDup (arange n).
Proof.
  unfold arange. apply NoDup_fmap_2; [|apply NoDup_seq].
  intros a b. lia.
Qed.

Section EntriesFacts.
Context {T : Type}.
Implicit Types (drow : list T) (rows : list (list T)) (ks : list Z).

Lemma elem_of_zip_arange drow (c : Z) (v : T) :
  (c, v) ∈ zip (arange (length drow)) drow
  <-> 0 <= c /\ drow !! Z.to_nat c = Some v.
Proof.
  rewrite list_elem_of_lookup. split.
  - intros [j Hj]. apply lookup_zip_with_Some in Hj as (c' & v' & E & Hc & Hv).
    injection E as -> ->. rewrite lookup_arange in Hc.
    destruct (decide _); [|done]. injection Hc as <-.
    by rewrite Nat2Z.id; split; [lia|].
  - intros [Hc Hv]. exists (Z.to_nat c). apply lookup_zip_with_Some.
    exists c, v. split; [done|]. split; [|done].
    rewrite lookup_arange. apply lookup_lt_Some in Hv.
    rewrite decide_True by done. f_equal. lia.
Qed.

Lemma elem_of_diag_entries (M N k : Z) drow (r c : Z) (v : T) :
  (r, c, v) ∈ diag_entries M N k drow
  <-> r = c - k /\ live M N k c /\ 0 <= c /\ drow !! Z.to_nat c = Some v.
Proof.
  unfold diag_entries. rewrite list_elem_of_fmap. split.
  - intros ([c' v'] & E & Hin). simpl in E. injection E as -> -> ->.
    apply list_elem_of_filter in Hin as [Hl Hin]. simpl in Hl.
    apply elem_of_zip_arange in Hin. tauto.
  - intros (-> & Hl & Hc & Hv). exists (c, v). split; [done|].
    apply list_elem_of_filter. split; [done|]. by apply elem_of_zip_arange.
Qed.

Lemma elem_of_entries (M N : Z) ks rows (e : Z * Z * T) :
  e ∈ entries M N ks rows
  <-> exists i k drow,
        ks !! i = Some k /\ rows !! i = Some drow /\ e ∈ diag_entries M N k drow.
Proof.
  unfold entries. revert rows.
  induction ks as [|k ks IH]; intros [|drow rows]; simpl;
    try (rewrite elem_of_nil; split; [done|];
         intros (i & k' & d' & H1 & H2 & _); by destruct i).
  rewrite elem_of_app, IH. split.
  - intros [He|(i & k' & d' & H1 & H2 & He)].
    + by exists 0%nat, k, drow.
    + by exists (S i), k', d'.
  - intros (i & k' & d' & H1 & H2 & He). destruct i as [|i]; simpl in *.
    + left. by simplify_eq.
    + right. by exists i, k', d'.
Qed.

Lemma NoDup_diag_coords (M N k : Z) drow :
  NoDup ((fun e => e.1) <$> diag_entries M N k drow).
Proof.
  unfold diag_entries. rewrite <- list_fmap_compose.
  generalize (NoDup_arange (length drow)).
  generalize (arange (length drow)) as cs. intros cs. revert drow.
  induction cs as [|c cs IH]; intros [|v vs] Hnd; try (simpl; constructor).
  apply NoDup_cons in Hnd as [Hc Hnd]. simpl. rewrite filter_cons. simpl.
  destruct (decide (live M N k c)); [|by apply IH].
  csimpl. apply NoDup_cons. split; [|by apply IH].
  intros Hin. apply list_elem_of_fmap in Hin as ([c' v'] & E & Hin).
  simpl in E. injection E as _ <-.
  apply list_elem_of_filter in Hin as [_ Hin].
  apply elem_of_zip_l in Hin. done.
Qed.

(** No position is exported twice. *)
Lemma NoDup_entries_coords (M N : Z) ks rows :
  NoDup ks -> NoDup ((fun e => e.1) <$> entries M N ks rows).
Proof.
  unfold entries. revert rows.
  induction ks as [|k ks IH]; intros [|drow rows] Hnd; try (simpl; constructor).
  apply NoDup_cons in Hnd as [Hk Hnd]. simpl. rewrite fmap_app.
  apply NoDup_app. split; [apply NoDup_diag_coords|]. split; [|by apply IH].
  intros [r c] H1 H2.
  apply list_elem_of_fmap in H1 as ([[r1 c1] v1] & E1 & H1). simpl in E1.
  apply list_elem_of_fmap in H2 as ([[r2 c2] v2] & E2 & H2). simpl in E2.
  simplify_eq.
  apply elem_of_diag_entries in H1 as (Hr1 & _).
  apply (elem_of_entries M N ks rows) in H2 as (i & k' & d' & Hi & _ & H2).
  apply elem_of_diag_entries in H2 as (Hr2 & _).
  assert (k' = k) as -> by lia.
  apply Hk. by eapply list_elem_of_lookup_2.
Qed.

End EntriesFacts.

(** ** Dense materialisations *)

Section Dense.
Context {T : Type} {DT : Dtype T}.
Implicit Types (D : list (list T)) (rows : list (list T)) (ks : list Z).

Lemma fold_store_diag_entries (M N k : Z) (drow : list T) D :
  fold_left store (diag_entries M N k drow) D = walk_diagonal M N D (k, drow).
Proof.
  unfold diag_entries, walk_diagonal. simpl.
  generalize (zip (arange (length drow)) drow) as l. intros l. revert D.
  induction l as [|[c v] l IH]; intros D; [done|].
  rewrite filter_cons. simpl. case_bool_decide as Hl.
  - rewrite decide_True by done. csimpl. apply IH.
  - rewrite decide_False by done. apply IH.
Qed.

Lemma fold_store_entries (M N : Z) ks rows D :
  fold_left store (entries M N ks rows) D
  = fold_left (walk_diagonal M N) (zip ks rows) D.
Proof.
  unfold entries. revert rows D.
  induction ks as [|k ks IH]; intros [|drow rows] D; try done.
  simpl. rewrite fold_left_app, fold_store_diag_entries. apply IH.
Qed.

(** The coordinate export of a matrix in normal form: [K] diagonals in strips
    of width [L]. *)
Lemma tocoo_normal_form (M N : Z) (L : nat) ks rows :
  length rows = length ks ->
  Forall (fun r => length r = L) rows ->
  NoDup ks ->
  exists C,
    tocoo (DiaMatrix (Nd2 L rows) (Nd1 ks) (M, N)) = Ret C
    /\ coo_shape C = (M, N)
    /\ length (coo_row C) = length (coo_data C)
    /\ length (coo_col C) = length (coo_data C)
    /\ (forall r c v,
          (r, c, v) ∈ coo_triples C
          <-> exists i k drow,
                ks !! i = Some k /\ rows !! i = Some drow
                /\ r = c - k /\ 0 <= c < Z.of_nat L /\ 0 <= r < M /\ c < N
                /\ drow !! Z.to_nat c = Some v)
    /\ NoDup (zip (coo_row C) (coo_col C))
    /\ dense_of_coo C = dense_of_diagonals M N ks rows.
Proof.
  intros Hlen Hrows Hnd.
  exists (coo_of_entries (entries M N ks rows) (M, N)).
  split; [by apply tocoo_entries|]. split; [done|].
  split; [simpl; by rewrite !length_fmap|].
  split; [simpl; by rewrite !length_fmap|].
  split; [|split].
  - intros r c v. rewrite coo_triples_of_entries, elem_of_entries.
    split.
    + intros (i & k & drow & Hk & Hd & He).
      apply elem_of_diag_entries in He as (-> & [Hl1 Hl2] & Hc & Hv).
      exists i, k, drow. repeat split; try done; try lia.
      apply lookup_lt_Some in Hv.
      eapply Forall_lookup_1 in Hrows; [|exact Hd]. simpl in Hrows. lia.
    + intros (i & k & drow & Hk & Hd & -> & Hc & Hr & Hn & Hv).
      exists i, k, drow. split; [done|]. split; [done|].
      apply elem_of_diag_entries. unfold live. repeat split; try done; lia.
  - simpl.
    assert (E : forall l : list (Z * Z * T),
              zip ((fun e => e.1.1) <$> l) ((fun e => e.1.2) <$> l)
              = (fun e => e.1) <$> l).
    { induction l as [|[[r c] v] l IH]; csimpl; [done|]. by rewrite IH. }
    rewrite E. by apply NoDup_entries_coords.
  - unfold dense_of_coo. rewrite coo_triples_of_entries. simpl.
    apply fold_store_entries.
Qed.

(** C2. The coordinate export of a constructed matrix succeeds; its three
    arrays have one length; its triples are exactly the live entries of the
    element mapping, [(c - k, c)] with value [data[i][c]] for [0 <= c < L],
    [0 <= c - k < M] and [c < N]; no position occurs twice; and the dense
    matrix rebuilt from the export is the one obtained by walking the
    diagonals. *)
Theorem tocoo_exports_live_entries (A : dia_matrix T) :
  constructed A -> wf (data A) ->
  exists (L : nat) rows ks C,
    data A = Nd2 L rows /\ diags A = Nd1 ks
    /\ tocoo A = Ret C
    /\ coo_shape C = shape A
    /\ length (coo_row C) = length (coo_data C)
    /\ length (coo_col C) = length (coo_data C)
    /\ (forall r c v,
          (r, c, v) ∈ coo_triples C
          <-> exists i k drow,
                ks !! i = Some k /\ rows !! i = Some drow
                /\ r = c - k /\ 0 <= c < Z.of_nat L
                /\ 0 <= r < (shape A).1 /\ c < (shape A).2
                /\ drow !! Z.to_nat c = Some v)
    /\ NoDup (zip (coo_row C) (coo_col C))
    /\ dense_of_coo C = dense_of_diagonals (shape A).1 (shape A).2 ks rows.
Proof.
  intros HA Hwf. apply constructed_inv in HA as [Hok _].
  destruct (format_ok_inv A Hok) as (L & rows & ks & [M N] & -> & Hlen & Hnd).
  simpl in Hwf.
  destruct (tocoo_normal_form M N L ks rows Hlen Hwf Hnd) as (C & HC).
  exists L, rows, ks, C. by repeat (split; [done|]).
Qed.

End Dense.

Lemma tocoo_exports_live_entries_witness :
  exists C,
    tocoo A44 = Ret C
    /\ coo_triples C
       = [(0,0,1); (1,1,2); (2,2,3); (3,3,4); (1,0,1); (2,1,2); (3,2,3);
          (0,2,3); (1,3,4)]
    /\ NoDup (zip (coo_row C) (coo_col C))
    /\ dense_of_coo C = [[1;0;3;0]; [1;2;0;4]; [0;2;3;0]; [0;0;3;4]].
Proof.
  destruct (tocoo_exports_live_entries A44)
    as (L & rows & ks & C & _ & _ & HC & _ & _ & _ & _ & Hnd & _).
  - by apply (constructed_pair (Nd2 4 [[1;2;3;4]; [1;2;3;4]; [1;2;3;4]])
                (Nd1 [0; -1; 2]) (Some (4, 4))).
  - repeat constructor.
  - exists C. split; [exact HC|].
    vm_compute in HC. injection HC as <-. by vm_compute.
Defined.

(** ** Counting stored entries *)

Lemma sumZ_cons (x : Z) (l : list Z) : sumZ (x :: l) = x + sumZ l.
Proof. done. Qed.

Lemma sumZ_Permutation (l1 l2 : list Z) : l1 ≡ₚ l2 -> sumZ l1 = sumZ l2.
Proof. induction 1; rewrite ?sumZ_cons; lia. Qed.

Lemma sumZ_le (f g : Z -> Z) (ks : list Z) :
  Forall (fun k => f k <= g k) ks -> sumZ (f <$> ks) <= sumZ (g <$> ks).
Proof. induction 1; csimpl; rewrite ?sumZ_cons; lia. Qed.

Lemma sumZ_lt (f g : Z -> Z) (ks : list Z) :
  Forall (fun k => f k <= g k) ks -> Exists (fun k => f k < g k) ks ->
  sumZ (f <$> ks) < sumZ (g <$> ks).
Proof.
  intros Hle Hlt. induction Hlt as [k ks Hk|k ks Hlt IH];
    apply Forall_cons in Hle as [Hk' Hle]; csimpl; rewrite !sumZ_cons.
  - pose proof (sumZ_le f g ks Hle). lia.
  - specialize (IH Hle). lia.
Qed.

Lemma diag_nnz_live_length (M N k : Z) :
  0 <= diag_nnz M N k -> diag_nnz M N k = live_length M N k.
Proof.
  unfold diag_nnz, live_length.
  destruct (Z.ltb_spec 0 k), (Z.leb_spec 0 k); lia.
Qed.

Lemma diag_nnz_in_range (M N k : Z) :
  0 <= M -> 0 <= N -> - M <= k <= N -> 0 <= diag_nnz M N k.
Proof. unfold diag_nnz. destruct (Z.ltb_spec 0 k); lia. Qed.

Lemma stored_length_le_strip (M N : Z) (L : nat) (k : Z) :
  stored_length M N L k <= Z.of_nat L.
Proof. unfold stored_length. lia. Qed.

Lemma stored_length_le_nnz (M N : Z) (L : nat) (k : Z) :
  0 <= diag_nnz M N k -> stored_length M N L k <= diag_nnz M N k.
Proof. unfold stored_length, diag_nnz. destruct (Z.ltb_spec 0 k); lia. Qed.

Lemma length_filter_interval (lo hi : Z) (L : nat) :
  Z.of_nat (length (filter (fun c => lo <= c < hi) (arange L)))
  = Z.max 0 (Z.min hi (Z.of_nat L) - Z.max 0 lo).
Proof.
  unfold arange. induction L as [|L IH]; [simpl; lia|].
  rewrite seq_S, fmap_app, filter_app, length_app, Nat2Z.inj_add, IH.
  simpl. rewrite filter_cons, filter_nil.
  destruct (decide (lo <= Z.of_nat L < hi)); simpl; lia.
Qed.

Section Counting.
Context {T : Type} {DT : Dtype T}.
Implicit Types (rows : list (list T)) (ks : list Z).

Lemma getnnz_sum (d : ndarray T) ks (M N : Z) :
  getnnz (DiaMatrix d (Nd1 ks) (M, N)) = Ret (sumZ (diag_nnz M N <$> ks)).
Proof.
  unfold getnnz. simpl. f_equal.
  assert (G : forall a, fold_left
            (fun nnz k => if 0 <? k then nnz + Z.min M (N - k)
                          else nnz + Z.min (M + k) N) ks a
          = a + sumZ (diag_nnz M N <$> ks)).
  { induction ks as [|k ks IH]; intros a; csimpl; [unfold sumZ; simpl; lia|].
    rewrite IH, sumZ_cons. unfold diag_nnz. destruct (0 <? k); lia. }
  rewrite G. lia.
Qed.

(** Where no offset leaves the matrix, the count is the floored sum. *)
Lemma getnnz_in_range (d : ndarray T) ks (M N : Z) :
  0 <= M -> 0 <= N -> Forall (fun k => - M <= k <= N) ks ->
  getnnz (DiaMatrix d (Nd1 ks) (M, N)) = Ret (nnz_spec M N ks).
Proof.
  intros HM HN Hks. rewrite getnnz_sum. unfold nnz_spec. do 2 f_equal.
  induction Hks as [|k ks Hk _ IH]; csimpl; [done|].
  rewrite IH. f_equal. by apply diag_nnz_live_length, diag_nnz_in_range.
Qed.

Lemma length_filter_zip_fst (P : Z -> Prop) `{!forall c, Decision (P c)}
    (cs : list Z) (vs : list T) :
  length cs = length vs ->
  length (filter (fun cv => P cv.1) (zip cs vs)) = length (filter P cs).
Proof.
  revert vs. induction cs as [|c cs IH]; intros [|v vs] Hlen; try done.
  injection Hlen as Hlen. simpl. rewrite !filter_cons. simpl.
  destruct (decide (P c)); simpl; by rewrite IH.
Qed.

Lemma length_diag_entries (M N k : Z) (drow : list T) :
  Z.of_nat (length (diag_entries M N k drow))
  = stored_length M N (length drow) k.
Proof.
  unfold diag_entries. rewrite length_fmap.
  rewrite (length_filter_zip_fst (live M N k)) by apply length_arange.
  rewrite (list_filter_iff _ (fun c => k <= c < Z.min (M + k) N))
    by (intros c; unfold live; lia).
  rewrite length_filter_interval. unfold stored_length. lia.
Qed.

(** The export holds, for each diagonal, its ideal length clipped by the
    width of the strip. *)
Lemma length_entries (M N : Z) (L : nat) ks rows :
  length rows = length ks ->
  Forall (fun r => length r = L) rows ->
  Z.of_nat (length (entries M N ks rows)) = sumZ (stored_length M N L <$> ks).
Proof.
  unfold entries. revert rows.
  induction ks as [|k ks IH]; intros [|drow rows] Hlen Hrows; try done.
  injection Hlen as Hlen. apply Forall_cons in Hrows as [HL Hrows].
  csimpl. rewrite sumZ_cons, length_app, Nat2Z.inj_add, IH, length_diag_entries, HL
    by done.
  done.
Qed.

End Counting.

Section CountingProperties.
Context {T : Type} {DT : Dtype T}.
Implicit Types (A B : dia_matrix T) (rows : list (list T)) (ks : list Z).

(** C5. For a 4 by 4 matrix with the offsets 0, -1 and 2, in any order and
    whatever the stored values (zeros included), [getnnz] is 9: the three
    diagonals contribute 4, 3 and 2. *)
Theorem getnnz_example_nine (d : ndarray T) ks :
  ks ≡ₚ [0; -1; 2] ->
  getnnz (DiaMatrix d (Nd1 ks) (4, 4)) = Ret 9
  /\ diag_nnz 4 4 0 = 4 /\ diag_nnz 4 4 (-1) = 3 /\ diag_nnz 4 4 2 = 2.
Proof.
  intros Hp. split; [|done]. rewrite getnnz_sum. f_equal.
  rewrite (sumZ_Permutation _ (diag_nnz 4 4 <$> [0; -1; 2])); [done|].
  by apply fmap_Permutation.
Qed.

(** X17.  [getnnz] reads the shape and the offsets only: two matrices that
    agree on them have the same count, whatever their data buffers and
    strip widths.  Hence, for a matrix in normal form whose per-diagonal
    counts are all non-negative, a strip narrower than the ideal length of
    some diagonal makes the count exceed the number of exported entries. *)
Theorem getnnz_ignores_data :
  (forall A B, shape A = shape B -> diags A = diags B -> getnnz A = getnnz B)
  /\ (forall (M N : Z) (L : nat) ks rows,
        length rows = length ks ->
        Forall (fun r => length r = L) rows ->
        Forall (fun k => 0 <= diag_nnz M N k) ks ->
        Exists (fun k => Z.of_nat L < diag_nnz M N k) ks ->
        exists C nnz,
          tocoo (DiaMatrix (Nd2 L rows) (Nd1 ks) (M, N)) = Ret C
          /\ getnnz (DiaMatrix (Nd2 L rows) (Nd1 ks) (M, N)) = Ret nnz
          /\ Z.of_nat (length (coo_data C)) < nnz).
Proof.
  split.
  - intros A B Hs Hd. unfold getnnz. by rewrite Hs, Hd.
  - intros M N L ks rows Hlen Hrows Hpos Hex.
    exists (coo_of_entries (entries M N ks rows) (M, N)),
           (sumZ (diag_nnz M N <$> ks)).
    split; [by apply tocoo_entries|]. split; [apply getnnz_sum|].
    simpl. rewrite length_fmap, (length_entries M N L) by done.
    apply sumZ_lt.
    + eapply Forall_impl; [exact Hpos|]. intros k Hk.
      by apply stored_length_le_nnz.
    + eapply Exists_impl; [exact Hex|]. intros k Hk. simpl in *.
      pose proof (stored_length_le_strip M N L k). lia.
Qed.

End CountingProperties.

Lemma getnnz_example_nine_witness :
  getnnz (DiaMatrix (Nd2 4 [[0;0;0;0]; [0;0;0;0]; [0;0;0;0]]) (Nd1 [2; 0; -1]) (4, 4))
  = Ret 9.
Proof.
  refine (proj1 (getnnz_example_nine (T:=Z) _ [2; 0; -1] _)).
  change [2; 0; -1] with ([2] ++ [0; -1]).
  change [0; -1; 2] with ([0; -1] ++ [2]).
  apply Permutation_app_comm.
Defined.

Lemma getnnz_ignores_data_witness :
  getnnz (DiaMatrix (Nd2 2 [[5;6]]) (Nd1 [0]) (4, 4))
  = getnnz (DiaMatrix (Nd2 4 [[1;2;3;4]]) (Nd1 [0]) (4, 4))
  /\ exists C nnz,
       tocoo (DiaMatrix (Nd2 2 [[5;6]]) (Nd1 [0]) (4, 4)) = Ret C
       /\ getnnz (DiaMatrix (Nd2 2 [[5;6]]) (Nd1 [0]) (4, 4)) = Ret nnz
       /\ Z.of_nat (length (coo_data C)) < nnz.
Proof.
  split.
  - apply (proj1 (getnnz_ignores_data (T:=Z))); reflexivity.
  - apply (proj2 (getnnz_ignores_data (T:=Z)) 4 4 2%nat [0] [[5;6]]).
    + reflexivity.
    + repeat constructor.
    + repeat constructor. vm_compute. discriminate.
    + constructor. vm_compute. reflexivity.
Defined.

(** C9, evaluated where it fails.  The 4 by 4 matrix with the offsets 0 and
    7 in strips of width 2 is accepted by the constructor.  Its strip is
    narrower than the ideal length 4 of the main diagonal, and the export
    holds the two entries [(0,0) = 5] and [(1,1) = 6]; the floored count of
    the design document is 4, which exceeds 2.  [getnnz] adds
    [min(4, 4 - 7) = -3] for the offset 7 and returns 1, which does not. *)
Theorem getnnz_below_export :
  let A := DiaMatrix (Nd2 2 [[5;6]; [7;8]]) (Nd1 [0; 7]) (4, 4) in
  __init__ (FromPair (Nd2 2 [[5;6]; [7;8]]) (Nd1 [0; 7])) (Some (4, 4)) = Ret A
  /\ tocoo A = Ret (CooMatrix [5; 6] [0; 1] [0; 1] (4, 4))
  /\ live_length 4 4 0 = 4
  /\ nnz_spec 4 4 [0; 7] = 4
  /\ diag_nnz 4 4 7 = -3
  /\ getnnz A = Ret 1.
Proof. repeat split. Qed.

(** C3, evaluated where it fails.  The 4 by 4 matrix with the single offset
    5 is accepted by the constructor and exports no entry, and the floored
    count of the design document is 0; [getnnz] returns -1. *)
Theorem getnnz_negative_outside :
  let A := DiaMatrix (Nd2 4 [[1;2;3;4]]) (Nd1 [5]) (4, 4) in
  __init__ (FromPair (Nd2 4 [[1;2;3;4]]) (Nd1 [5])) (Some (4, 4)) = Ret A
  /\ getnnz A = Ret (-1)
  /\ nnz_spec 4 4 [5] = 0
  /\ tocoo A = Ret (CooMatrix [] [] [] (4, 4)).
Proof. repeat split. Qed.

(** C4. The 4 by 4 matrix with the single offset 0 and the strip [5, 6] of
    width 2 exports exactly [(0,0) = 5] and [(1,1) = 6]; in a product with a
    vector only these two entries take part, rows 2 and 3 of the result stay
    zero; [getnnz] still reports the ideal length 4. *)
Theorem truncated_strip_example :
  let A := DiaMatrix (Nd2 2 [[5;6]]) (Nd1 [0]) (4, 4) in
  tocoo A = Ret (CooMatrix [5; 6] [0; 1] [0; 1] (4, 4))
  /\ (forall x0 x1 x2 x3 : Z,
        matvec A (Nd1 [x0; x1; x2; x3]) = Ret (Nd1 [0 + 5 * x0; 0 + 6 * x1; 0; 0]))
  /\ dense_of_diagonals 4 4 [0] [[5;6]]
     = [[5;0;0;0]; [0;6;0;0]; [0;0;0;0]; [0;0;0;0]]
  /\ getnnz A = Ret 4.
Proof. repeat split. Qed.

(** ** Multiplication by a dense operand *)

Lemma slice_index_id (n : nat) (i : Z) :
  0 <= i <= Z.of_nat n -> slice_index n i = Z.to_nat i.
Proof. unfold slice_index. intros H. destruct (Z.ltb_spec i 0); lia. Qed.

Lemma slice_take_drop {A : Type} (l : list A) (s e : Z) :
  0 <= s <= e -> e <= Z.of_nat (length l) ->
  slice l s e = take (Z.to_nat e - Z.to_nat s) (drop (Z.to_nat s) l).
Proof. intros Hs He. unfold slice. by rewrite !slice_index_id by lia. Qed.

Lemma length_slice {A : Type} (l : list A) (s e : Z) :
  0 <= s <= e -> e <= Z.of_nat (length l) ->
  length (slice l s e) = Z.to_nat (e - s).
Proof.
  intros Hs He. rewrite slice_take_drop by done.
  rewrite length_take, length_drop. lia.
Qed.

Lemma lookup_slice {A : Type} (l : list A) (s e : Z) (i : nat) :
  0 <= s <= e -> e <= Z.of_nat (length l) ->
  (i < Z.to_nat (e - s))%nat ->
  slice l s e !! i = l !! (Z.to_nat s + i)%nat.
Proof.
  intros Hs He Hi. rewrite slice_take_drop by done.
  rewrite lookup_take_lt by lia. apply lookup_drop.
Qed.

Lemma slice_assign_app {A : Type} (l : list A) (s e : Z) (new : list A) :
  0 <= s <= e -> e <= Z.of_nat (length l) ->
  slice_assign l s e new
  = take (Z.to_nat s) l ++ new ++ drop (Z.to_nat e) l.
Proof.
  intros Hs He. unfold slice_assign. rewrite !slice_index_id by lia.
  do 3 f_equal. lia.
Qed.

Lemma length_tabulate2 {A : Type} (nr nc : nat) (f : nat -> nat -> A) :
  length (tabulate2 nr nc f) = nr.
Proof. unfold tabulate2. by rewrite length_fmap, length_seq. Qed.

Lemma lookup_tabulate2 {A : Type} (nr nc : nat) (f : nat -> nat -> A) (r : nat) :
  (r < nr)%nat -> tabulate2 nr nc f !! r = Some (f r <$> seq 0 nc).
Proof.
  intros Hr. unfold tabulate2. rewrite list_lookup_fmap, lookup_seq_lt by done.
  done.
Qed.

Lemma tabulate2_ext {A : Type} (nr nc : nat) (f g : nat -> nat -> A) :
  (forall r c, (r < nr)%nat -> (c < nc)%nat -> f r c = g r c) ->
  tabulate2 nr nc f = tabulate2 nr nc g.
Proof.
  intros Hfg. unfold tabulate2. apply list_fmap_ext. intros i r Hr.
  apply lookup_seq in Hr as [-> Hr]. apply list_fmap_ext. intros j c Hc.
  apply lookup_seq in Hc as [-> Hc]. by apply Hfg.
Qed.

Lemma replicate_tabulate2 {A : Type} (nr nc : nat) (v : A) :
  replicate nr (replicate nc v) = tabulate2 nr nc (fun _ _ => v).
Proof.
  assert (G : forall (B C : Type) (b : B) n (l : list C),
            length l = n -> replicate n b = (fun _ => b) <$> l).
  { intros B C b n l <-. induction l; csimpl; [done|]. by f_equal. }
  unfold tabulate2. rewrite <- (G _ _ v nc (seq 0 nc)) by apply length_seq.
  apply G, length_seq.
Qed.

(** Reading a rank-2 array inside its bounds involves no broadcasting. *)
Lemma get2_matrix {A : Type} (d : A) (nc : nat) (rows : list (list A)) (r c : nat) :
  (r < length rows)%nat -> (c < nc)%nat ->
  get2 d (Nd2 nc rows) r c = default d (rows !! r ≫= (.!! c)).
Proof.
  intros Hr Hc. simpl.
  assert ((if (length rows =? 1)%nat then 0 else r) = r)%nat as ->.
  { destruct (Nat.eqb_spec (length rows) 1); lia. }
  assert ((if (nc =? 1)%nat then 0 else c) = c)%nat as ->.
  { destruct (Nat.eqb_spec nc 1); lia. }
  by destruct (rows !! r).
Qed.

Lemma get2_column {A : Type} (d : A) (xs : list A) (r c : nat) :
  (r < length xs)%nat -> get2 d (column xs) r c = default d (xs !! r).
Proof.
  intros Hr. unfold column. simpl. rewrite length_fmap.
  assert ((if (length xs =? 1)%nat then 0 else r) = r)%nat as ->.
  { destruct (Nat.eqb_spec (length xs) 1); lia. }
  rewrite list_lookup_fmap. by destruct (xs !! r).
Qed.

Lemma broadcast_column (w p : nat) : broadcast_shapes [w; 1%nat] [w; p] = Some [w; p].
Proof.
  unfold broadcast_shapes. simpl. unfold broadcast_dim.
  rewrite (Nat.eqb_refl w). destruct p as [|[|p]]; reflexivity.
Qed.

Lemma broadcast_same (w p : nat) : broadcast_shapes [w; p] [w; p] = Some [w; p].
Proof.
  unfold broadcast_shapes. simpl. unfold broadcast_dim.
  rewrite !Nat.eqb_refl. reflexivity.
Qed.

Lemma ufunc2_ok {A : Type} (d : A) (f : A -> A -> A) (a b : ndarray A) (w p : nat) :
  broadcast_shapes (shape_of a) (shape_of b) = Some [w; p] ->
  ufunc2 d f a b w p
  = Ret (tabulate2 w p (fun r c => f (get2 d a r c) (get2 d b r c))).
Proof. intros Hs. unfold ufunc2. rewrite Hs. by rewrite bool_decide_eq_true_2. Qed.

Lemma slice_slice_assign {A : Type} (l : list A) (s e : Z) (new : list A) :
  0 <= s <= e -> e <= Z.of_nat (length l) -> length new = Z.to_nat (e - s) ->
  length (slice_assign l s e new) = length l
  /\ slice (slice_assign l s e new) s e = new.
Proof.
  intros Hs He Hn. rewrite slice_assign_app by done.
  assert (Hlen : length (take (Z.to_nat s) l ++ new ++ drop (Z.to_nat e) l)
                 = length l).
  { rewrite !length_app, length_take, length_drop. lia. }
  split; [done|].
  rewrite slice_take_drop by lia.
  rewrite drop_app_length' by (rewrite length_take; lia).
  apply take_app_length'. lia.
Qed.

Section Matvec.
Context {T : Type} {DT : Dtype T}.
Implicit Types (x y temp rows : list (list T)) (diag : list T) (ks : list Z).

Lemma matvec_step_spec (M N : Z) (L P : nat) x (f : nat -> nat -> T) temp diag k :
  0 <= M -> N = Z.of_nat (length x) -> length diag = L ->
  length temp = Z.to_nat M ->
  Z.max 0 k <= Z.min (Z.min (M + k) N) (Z.of_nat L) ->
  exists temp',
    matvec_step M N L P (Nd2 P x) (tabulate2 (Z.to_nat M) P f, temp) (diag, k)
    = Ret (tabulate2 (Z.to_nat M) P
             (fun r p => accumulate M N L x r p (f r p) (diag, k)), temp')
    /\ length temp' = Z.to_nat M.
Proof.
  intros HM HN HL Htemp Hwin. unfold matvec_step, accumulate. cbn [fst snd].
  set (j0 := Z.max 0 k) in *.
  set (j1 := Z.min (Z.min (M + k) N) (Z.of_nat L)) in *.
  set (i0 := Z.max 0 (- k)).
  set (i1 := i0 + (j1 - j0)).
  set (y := tabulate2 (Z.to_nat M) P f).
  assert (Hy : length y = Z.to_nat M) by apply length_tabulate2.
  assert (Hj0 : 0 <= j0 <= j1) by lia.
  assert (HjL : j1 <= Z.of_nat (length diag)) by lia.
  assert (HjN : j1 <= Z.of_nat (length x)) by lia.
  assert (Hi0 : 0 <= i0 <= i1) by lia.
  assert (HiM : i1 <= Z.of_nat (Z.to_nat M)) by lia.
  assert (Hw : i1 - i0 = j1 - j0) by lia.
  set (w := Z.to_nat (j1 - j0)).
  cbn [slice0]. cbn [mbind res_bind].
  set (prod := tabulate2 w P (fun r c =>
         mul (default zero (diag !! (Z.to_nat j0 + r)%nat))
             (at2 x (Z.to_nat j0 + r) c))).
  assert (Hprod : ufunc2 zero mul (column (slice diag j0 j1)) (Nd2 P (slice x j0 j1))
                    (length (slice temp i0 i1)) P = Ret prod).
  { rewrite (length_slice temp) by lia. rewrite Hw. fold w.
    rewrite ufunc2_ok.
    - f_equal. apply tabulate2_ext. intros r c Hr Hc.
      rewrite get2_column by (rewrite length_slice by lia; done).
      rewrite get2_matrix by (rewrite ?length_slice by lia; done).
      rewrite !lookup_slice by done. done.
    - unfold column. cbn [shape_of]. rewrite length_fmap, !length_slice by lia.
      apply broadcast_column. }
  rewrite Hprod. cbn [mbind res_bind].
  destruct (slice_slice_assign temp i0 i1 prod) as [Hlt Hst]; [lia..| |].
  { unfold prod. rewrite length_tabulate2. unfold w. lia. }
  rewrite Hst.
  set (sum := tabulate2 w P (fun r c =>
         add (f (Z.to_nat i0 + r)%nat c)
             (mul (default zero (diag !! (Z.to_nat j0 + r)%nat))
                  (at2 x (Z.to_nat j0 + r) c)))).
  assert (Hsum : ufunc2 zero add (Nd2 P (slice y i0 i1)) (Nd2 P prod)
                   (length (slice y i0 i1)) P = Ret sum).
  { rewrite (length_slice y) by lia. rewrite Hw. fold w.
    rewrite ufunc2_ok.
    - f_equal. apply tabulate2_ext. intros r c Hr Hc.
      rewrite !get2_matrix
        by (rewrite ?length_slice by lia; unfold prod;
            rewrite ?length_tabulate2; lia).
      rewrite lookup_slice by lia.
      unfold y, prod. rewrite !lookup_tabulate2 by lia. cbn [mbind option_bind].
      rewrite !list_lookup_fmap, !lookup_seq_lt by done. done.
    - cbn [shape_of]. rewrite length_slice by lia.
      unfold prod. rewrite length_tabulate2, Hw. apply broadcast_same. }
  rewrite Hsum. cbn [mbind res_bind].
  exists (slice_assign temp i0 i1 prod). split; [|lia].
  do 2 f_equal. rewrite slice_assign_app by lia.
  apply list_eq. intros r.
  assert (Hsl : length sum = w) by (unfold sum; by rewrite length_tabulate2).
  destruct (decide (r < Z.to_nat M)%nat) as [Hr|Hr].
  2:{ rewrite (lookup_ge_None_2 (tabulate2 _ _ _)) by (rewrite length_tabulate2; lia).
      apply lookup_ge_None_2.
      rewrite !length_app, length_take, length_drop. lia. }
  rewrite lookup_tabulate2 by done.
  destruct (decide (r < Z.to_nat i0)%nat) as [Hlo|Hlo].
  { rewrite lookup_app_l by (rewrite length_take; lia).
    rewrite lookup_take_lt by done. unfold y. rewrite lookup_tabulate2 by done.
    f_equal. apply list_fmap_ext. intros _ p _.
    rewrite bool_decide_eq_false_2; [done|lia]. }
  rewrite lookup_app_r by (rewrite length_take; lia).
  rewrite length_take, Nat.min_l by lia.
  destruct (decide (r < Z.to_nat i1)%nat) as [Hhi|Hhi].
  - rewrite lookup_app_l by lia.
    unfold sum. rewrite lookup_tabulate2 by (unfold w; lia).
    f_equal. apply list_fmap_ext. intros _ p _.
    rewrite bool_decide_eq_true_2 by lia.
    replace (Z.to_nat i0 + (r - Z.to_nat i0))%nat with r by lia.
    replace (Z.to_nat (j0 + (Z.of_nat r - i0)))
      with (Z.to_nat j0 + (r - Z.to_nat i0))%nat by lia.
    done.
  - rewrite lookup_app_r by lia. rewrite lookup_drop.
    replace (Z.to_nat i1 + (r - Z.to_nat i0 - length sum))%nat with r by lia.
    unfold y. rewrite lookup_tabulate2 by done.
    f_equal. apply list_fmap_ext. intros _ p _.
    rewrite bool_decide_eq_false_2; [done|lia].
Qed.

End Matvec.

Section MatvecCorrect.
Context {T : Type} {DT : Dtype T}.
Implicit Types (x rows : list (list T)) (ks : list Z).

Lemma for_each_matvec_step (M N : Z) (L P : nat) x
    (dks : list (list T * Z)) (f : nat -> nat -> T) (temp : list (list T)) :
  0 <= M -> N = Z.of_nat (length x) ->
  Forall (fun dk => length dk.1 = L /\ window_ok M N L dk.2) dks ->
  length temp = Z.to_nat M ->
  exists temp',
    for_each (matvec_step M N L P (Nd2 P x)) dks (tabulate2 (Z.to_nat M) P f, temp)
    = Ret (tabulate2 (Z.to_nat M) P
             (fun r p => fold_left (accumulate M N L x r p) dks (f r p)), temp').
Proof.
  intros HM HN Hdks. revert f temp.
  induction Hdks as [|[diag k] dks [HL Hwin] _ IH]; intros f temp Htemp.
  - by exists temp.
  - simpl in HL, Hwin.
    destruct (matvec_step_spec M N L P x f temp diag k) as (temp1 & E & Ht1);
      try done.
    cbn [for_each]. rewrite E. cbn [mbind res_bind].
    destruct (IH (fun r p => accumulate M N L x r p (f r p) (diag, k)) temp1 Ht1)
      as (temp2 & E2).
    exists temp2. by rewrite E2.
Qed.

Lemma Forall_zip_rows_offsets (M N : Z) (L : nat) rows ks :
  Forall (fun r => length r = L) rows ->
  Forall (window_ok M N L) ks ->
  Forall (fun dk : list T * Z => length dk.1 = L /\ window_ok M N L dk.2)
    (zip rows ks).
Proof.
  intros Hrows. revert ks.
  induction Hrows as [|r rows Hr _ IH]; intros ks Hks; [constructor|].
  destruct Hks as [|k ks Hk Hks]; [constructor|].
  simpl. constructor; [done|]. by apply IH.
Qed.

(** Where every window is well formed, [matvec] returns the accumulation of
    the diagonals over a zero matrix: of shape [(M, P)] for an operand of
    shape [(N, P)], and of rank 1 for an operand of rank 1. *)
Lemma matvec_accumulates (M N : Z) (L : nat) rows ks :
  0 <= M ->
  Forall (fun r => length r = L) rows ->
  Forall (window_ok M N L) ks ->
  (forall (P : nat) x,
      N = Z.of_nat (length x) ->
      matvec (DiaMatrix (Nd2 L rows) (Nd1 ks) (M, N)) (Nd2 P x)
      = Ret (Nd2 P (matvec_spec M N L P rows ks x)))
  /\ (forall xs : list T,
        N = Z.of_nat (length xs) ->
        matvec (DiaMatrix (Nd2 L rows) (Nd1 ks) (M, N)) (Nd1 xs)
        = Ret (Nd1 (concat (matvec_spec M N L 1 rows ks ((fun v => [v]) <$> xs))))).
Proof.
  intros HM Hrows Hks.
  assert (G : forall (P : nat) x,
    N = Z.of_nat (length x) ->
    exists temp',
      for_each (matvec_step M N L P (Nd2 P x)) (zip rows ks)
        (replicate (Z.to_nat M) (replicate P zero),
         replicate (Z.to_nat M) (replicate P junk))
      = Ret (matvec_spec M N L P rows ks x, temp')).
  { intros P x HN. rewrite replicate_tabulate2.
    apply for_each_matvec_step; try done.
    - by apply Forall_zip_rows_offsets.
    - by rewrite length_replicate. }
  split.
  - intros P x HN. destruct (G P x HN) as (temp' & E).
    unfold matvec, full.
    cbn [shape_at shape_of lookup list_lookup data diags shape fst snd mbind res_bind].
    rewrite (bool_decide_eq_false_2 (N <> _)) by (intros Hne; by apply Hne).
    cbn [shape_at shape_of lookup list_lookup mbind res_bind].
    destruct (Z.ltb_spec M 0); [lia|].
    cbn [mbind res_bind matrix_rows scalars]. rewrite E. done.
  - intros xs HN.
    assert (HN' : N = Z.of_nat (length ((fun v : T => [v]) <$> xs)))
      by (by rewrite length_fmap).
    destruct (G 1%nat _ HN') as (temp' & E).
    unfold matvec, full, column.
    cbn [shape_at shape_of lookup list_lookup data diags shape fst snd mbind res_bind].
    rewrite (bool_decide_eq_false_2 (N <> _)) by (intros Hne; by apply Hne).
    cbn [shape_at shape_of lookup list_lookup mbind res_bind].
    destruct (Z.ltb_spec M 0); [lia|].
    cbn [mbind res_bind matrix_rows scalars]. rewrite E. done.
Qed.

End MatvecCorrect.


(** The worked example of the docstring. *)
Lemma matvec_worked_example :
  matvec A44 (Nd1 [1;1;1;1]) = Ret (Nd1 [4;7;5;7])
  /\ concat (matvec_spec 4 4 4 1 [[1;2;3;4]; [1;2;3;4]; [1;2;3;4]] [0; -1; 2]
               [[1]; [1]; [1]; [1]]) = [4;7;5;7].
Proof. split; reflexivity. Qed.

Lemma matvec_accumulates_example :
  matvec A44 (Nd2 2 [[1;0]; [1;1]; [1;2]; [1;3]])
  = Ret (Nd2 2 (matvec_spec 4 4 4 2 [[1;2;3;4]; [1;2;3;4]; [1;2;3;4]] [0; -1; 2]
                  [[1;0]; [1;1]; [1;2]; [1;3]])).
Proof.
  apply (matvec_accumulates (T:=Z) 4 4 4 [[1;2;3;4]; [1;2;3;4]; [1;2;3;4]] [0; -1; 2]).
  - lia.
  - repeat constructor.
  - repeat constructor; unfold window_ok; lia.
  - reflexivity.
Defined.

(** C1, evaluated where it fails.  The 4 by 4 matrix with the single offset
    3 and the strip [5, 6] of width 2 is accepted by the constructor and has
    no live entry, so the accumulation of the design document leaves the
    product with [1, 1, 1, 1] at zero.  In [matvec] the window is
    [j_start = 3], [j_end = 2], hence [i_end = -1]: the inputs of [multiply]
    are empty while the view [temp[0:-1]] has three rows, and [multiply]
    raises.  The worked example of the docstring holds. *)
Theorem matvec_raises_on_empty_window :
  let A := DiaMatrix (Nd2 2 [[5;6]]) (Nd1 [3]) (4, 4) in
  __init__ (FromPair (Nd2 2 [[5;6]]) (Nd1 [3])) (Some (4, 4)) = Ret A
  /\ tocoo A = Ret (CooMatrix [] [] [] (4, 4))
  /\ concat (matvec_spec 4 4 2 1 [[5;6]] [3] [[1]; [1]; [1]; [1]]) = [0;0;0;0]
  /\ matvec A (Nd1 [1;1;1;1]) = Raise (ValueError "invalid return array shape")
  /\ matvec A44 (Nd1 [1;1;1;1]) = Ret (Nd1 [4;7;5;7]).
Proof. repeat split. Qed.

(** * Further properties of the class *)

(** ** Construction *)

Section MoreConstruction.
Context {T : Type} {DT : Dtype T}.
Implicit Types (A self : dia_matrix T) (rows : list (list T)) (ks : list Z).

Lemma constructed_normal A :
  constructed A ->
  exists (L : nat) rows ks sh,
    A = DiaMatrix (Nd2 L rows) (Nd1 ks) sh
    /\ length rows = length ks /\ NoDup ks /\ Forall is_intc ks /\ shape_ok sh.
Proof.
  intros HA. pose proof (constructed_shape_ok A HA) as Hsh.
  apply constructed_inv in HA as [Hok Hint].
  destruct (format_ok_inv A Hok) as (L & rows & ks & sh & -> & Hlen & Hnd).
  by exists L, rows, ks, sh.
Qed.

Lemma mul_scalar_normal (L : nat) rows ks sh (s : T) :
  shape_ok sh ->
  length rows = length ks -> NoDup ks -> Forall is_intc ks ->
  __mul__ (DiaMatrix (Nd2 L rows) (Nd1 ks) sh) (Nd0 s)
  = Ret (Scaled (DiaMatrix (Nd2 L (fmap (M:=list) (fmap (M:=list) (mul s)) rows))
                   (Nd1 ks) sh)).
Proof.
  intros Hsh Hlen Hnd Hint. unfold __mul__. cbn [data diags shape map_array].
  rewrite init_pair_normal; [done|done|by rewrite length_fmap|done..].
Qed.

Lemma concat_replicate_singleton {X : Type} (n : nat) (z : X) :
  concat (replicate n [z]) = replicate n z.
Proof. induction n as [|n IH]; simpl; [done|]. by rewrite IH. Qed.

(** X1.  The constructor called with a shape [(M, N)] that the shape setter
    refuses raises [InvalidShape]; with a shape of non-negative dimensions
    it builds the matrix without any diagonal, whatever the shape argument.
    That matrix has no stored entry, exports nothing, and its product with
    an operand of [N] rows is the zero array of [M] rows. *)
Theorem empty_matrix_behaviour (M N : Z) (shape_arg : option (Z * Z)) :
  (~ shape_ok (M, N) ->
   __init__ (T:=T) (FromShape M N) shape_arg = Raise InvalidShape)
  /\ (shape_ok (M, N) ->
      let E := DiaMatrix (Nd2 0 []) (Nd1 []) (M, N) in
      __init__ (FromShape M N) shape_arg = Ret E
      /\ getnnz E = Ret 0
      /\ tocoo E = Ret (CooMatrix [] [] [] (M, N))
      /\ (forall xs : list T,
            N = Z.of_nat (length xs) ->
            matvec E (Nd1 xs) = Ret (Nd1 (replicate (Z.to_nat M) zero)))
      /\ (forall (P : nat) (x : list (list T)),
            N = Z.of_nat (length x) ->
            matvec E (Nd2 P x)
            = Ret (Nd2 P (replicate (Z.to_nat M) (replicate P zero))))).
Proof.
  split.
  - intros Hno. unfold __init__.
    destruct (set_shape (M, N)) as [s|e] eqn:Es.
    + apply set_shape_Ret in Es as [_ Hs]. done.
    + by apply set_shape_Raise in Es as [-> _].
  - intros Hs E. pose proof Hs as [HM HN]. simpl in HM, HN.
    split; [|repeat split].
    + unfold __init__. by rewrite set_shape_ok.
    + intros xs Hx. unfold matvec, full, column, E.
      cbn [shape_at shape_of lookup list_lookup data diags shape fst snd mbind res_bind].
      rewrite length_fmap.
      rewrite (bool_decide_eq_false_2 (N <> _)) by (intros Hne; by apply Hne).
      destruct (Z.ltb_spec M 0); [lia|]. simpl.
      by rewrite concat_replicate_singleton.
    + intros P x Hx. unfold matvec, full, E.
      cbn [shape_at shape_of lookup list_lookup data diags shape fst snd mbind res_bind].
      rewrite (bool_decide_eq_false_2 (N <> _)) by (intros Hne; by apply Hne).
      destruct (Z.ltb_spec M 0); [lia|]. done.
Qed.

(** X2.  Building a matrix from an instance whose shape the shape setter
    accepts returns that instance, provided it satisfies the format
    invariants, and raises an error of the format check otherwise; an
    instance whose shape the setter refuses gives [InvalidShape].  The shape
    argument plays no part. *)
Theorem init_from_instance A (shape_arg : option (Z * Z)) :
  (shape_ok (shape A) -> format_ok A -> __init__ (FromDia A) shape_arg = Ret A)
  /\ (shape_ok (shape A) -> ~ format_ok A ->
      exists e, __init__ (FromDia A) shape_arg = Raise e /\ MalformedStructure e)
  /\ (~ shape_ok (shape A) -> __init__ (FromDia A) shape_arg = Raise InvalidShape).
Proof.
  unfold __init__. destruct A as [d o sh]. cbn [data diags shape].
  split; [|split].
  - intros Hs Hok. rewrite set_shape_ok by done. by apply check_format_ok.
  - intros Hs Hno. rewrite set_shape_ok by done. simpl.
    destruct (check_format (DiaMatrix d o sh)) as [A'|e] eqn:E.
    + apply check_format_Ret in E as [_ Hok]. done.
    + exists e. split; [done|]. by eapply check_format_Raise.
  - intros Hno. destruct (set_shape sh) as [s|e] eqn:Es.
    + apply set_shape_Ret in Es as [_ Hs]. done.
    + by apply set_shape_Raise in Es as [-> _].
Qed.

(** X3.  A rank-1 data array given with a single scalar offset, and a shape
    that the shape setter accepts, is taken as one diagonal: the data
    becomes a strip of one row and the offset an array of one C int. *)
Theorem init_promotes_vector_and_scalar (xs : list T) (k : Z) (s : Z * Z) :
  shape_ok s ->
  __init__ (FromPair (Nd1 xs) (Nd0 k)) (Some s)
  = Ret (DiaMatrix (Nd2 (length xs) [xs]) (Nd1 [intc k]) s).
Proof.
  intros Hs. unfold __init__. rewrite set_shape_ok by done. simpl.
  apply check_format_ok, format_ok_intro; [done|]. apply NoDup_singleton.
Qed.

(** X4.  [_with_data] on a constructed matrix with [K] offsets: rank-2 data of
    [K] rows gives the matrix with that data and the offsets and shape of
    [self]; any other number of rows is reported with both counts.  Giving
    a matrix its own data returns the matrix. *)
Theorem with_data_row_count self (L : nat) rows (copy : bool) :
  constructed self ->
  exists ks,
    diags self = Nd1 ks
    /\ (length rows = length ks ->
        _with_data self (Nd2 L rows) copy
        = Ret (DiaMatrix (Nd2 L rows) (diags self) (shape self)))
    /\ (length rows <> length ks ->
        _with_data self (Nd2 L rows) copy
        = Raise (ValueError (diag_count_msg (length rows) (length ks))))
    /\ _with_data self (data self) copy = Ret self.
Proof.
  intros HA.
  destruct (constructed_normal self HA)
    as (L0 & rows0 & ks & sh & -> & Hlen & Hnd & Hint & Hsh).
  exists ks. cbn [data diags shape].
  assert (G : forall d, _with_data (DiaMatrix (Nd2 L0 rows0) (Nd1 ks) sh) d copy
                        = __init__ (FromPair d (Nd1 ks)) (Some sh))
    by (intros d; by destruct copy).
  rewrite !G. split; [done|]. split; [|split].
  - intros Hl. by apply init_pair_normal.
  - intros Hl. unfold __init__. rewrite set_shape_ok by done.
    unfold check_format. simpl. rewrite length_fmap.
    by rewrite (bool_decide_eq_true_2 (length rows <> length ks)).
  - by apply init_pair_normal.
Qed.

End MoreConstruction.

Lemma empty_matrix_behaviour_witness :
  __init__ (T:=Z) (FromShape 3 (-1)) None = Raise InvalidShape
  /\ __init__ (T:=Z) (FromShape 3 4) None = Ret (DiaMatrix (Nd2 0 []) (Nd1 []) (3, 4))
  /\ getnnz (DiaMatrix (Nd2 0 []) (Nd1 []) (3, 4) : dia_matrix Z) = Ret 0
  /\ matvec (DiaMatrix (Nd2 0 []) (Nd1 []) (3, 4)) (Nd1 [0; 0; 0; 0])
     = Ret (Nd1 [0; 0; 0]).
Proof.
  split.
  - apply (proj1 (empty_matrix_behaviour (T:=Z) 3 (-1) None)).
    unfold shape_ok. simpl. lia.
  - destruct (proj2 (empty_matrix_behaviour (T:=Z) 3 4 None))
      as (H1 & H2 & _ & H4 & _).
    + unfold shape_ok. simpl. lia.
    + split; [exact H1|]. split; [exact H2|].
      apply (H4 [0; 0; 0; 0]). reflexivity.
Defined.

Lemma init_from_instance_witness :
  __init__ (FromDia A44) None = Ret A44
  /\ (exists e,
        __init__ (FromDia (DiaMatrix (Nd2 1 [[7]; [8]]) (Nd1 [1; 1]) (2, 2))) None
        = Raise e /\ MalformedStructure e)
  /\ __init__ (FromDia (DiaMatrix (Nd2 1 [[7]]) (Nd1 [1]) (2, -2))) None
     = Raise InvalidShape.
Proof.
  split; [|split].
  - apply (proj1 (init_from_instance A44 None)).
    + unfold shape_ok. simpl. lia.
    + apply format_ok_intro; [done|]. by apply (bool_decide_unpack _).
  - apply (proj1 (proj2 (init_from_instance
                    (DiaMatrix (Nd2 1 [[7]; [8]]) (Nd1 [1; 1]) (2, 2)) None))).
    + unfold shape_ok. simpl. lia.
    + intros [_ _ _ Hnd]. simpl in Hnd.
      apply NoDup_cons in Hnd as [Hnd _]. apply Hnd. by left.
  - apply (proj2 (proj2 (init_from_instance
                    (DiaMatrix (Nd2 1 [[7]]) (Nd1 [1]) (2, -2)) None))).
    unfold shape_ok. simpl. lia.
Defined.

Lemma init_promotes_vector_and_scalar_witness :
  __init__ (FromPair (Nd1 [1; 2; 3]) (Nd0 1)) (Some (3, 3))
  = Ret (DiaMatrix (Nd2 3 [[1; 2; 3]]) (Nd1 [1]) (3, 3)).
Proof.
  apply (init_promotes_vector_and_scalar (T:=Z) [1; 2; 3] 1 (3, 3)).
  unfold shape_ok. simpl. lia.
Defined.

Lemma with_data_row_count_witness :
  _with_data A44 (Nd2 2 [[7;8]; [9;10]; [11;12]]) true
  = Ret (DiaMatrix (Nd2 2 [[7;8]; [9;10]; [11;12]]) (Nd1 [0; -1; 2]) (4, 4))
  /\ _with_data A44 (Nd2 2 [[7;8]]) false
     = Raise (ValueError
                "number of diagonals (1) does not match the number of diags (3)").
Proof.
  assert (HA : constructed A44).
  { by apply (constructed_pair (Nd2 4 [[1;2;3;4]; [1;2;3;4]; [1;2;3;4]])
                (Nd1 [0; -1; 2]) (Some (4, 4))). }
  split.
  - destruct (with_data_row_count A44 2 [[7;8]; [9;10]; [11;12]] true HA)
      as (ks & Hks & H1 & _).
    injection Hks as <-. by apply H1.
  - destruct (with_data_row_count A44 2 [[7;8]] false HA)
      as (ks & Hks & _ & H2 & _).
    injection Hks as <-. by apply H2.
Defined.

(** ** Counting and export *)

Lemma diag_nnz_le_min (M N k : Z) : diag_nnz M N k <= Z.min M N.
Proof. unfold diag_nnz. destruct (Z.ltb_spec 0 k); lia. Qed.

Lemma stored_length_full_strip (M N : Z) (L : nat) (k : Z) :
  N <= Z.of_nat L -> 0 <= diag_nnz M N k ->
  stored_length M N L k = diag_nnz M N k.
Proof. unfold stored_length, diag_nnz. destruct (Z.ltb_spec 0 k); lia. Qed.

Section MoreCounting.
Context {T : Type} {DT : Dtype T}.
Implicit Types (A : dia_matrix T) (rows : list (list T)) (ks : list Z).

(** X5.  Where every offset [k] lies within the matrix, [-M <= k <= N], the
    count of [getnnz] is the sum of the ideal diagonal lengths floored at
    zero; it is not negative and at most [min(M, N)] per diagonal. *)
Theorem getnnz_within_matrix (d : ndarray T) ks (M N : Z) :
  0 <= M -> 0 <= N -> Forall (fun k => - M <= k <= N) ks ->
  getnnz (DiaMatrix d (Nd1 ks) (M, N)) = Ret (nnz_spec M N ks)
  /\ 0 <= nnz_spec M N ks <= Z.of_nat (length ks) * Z.min M N.
Proof.
  intros HM HN Hks. split; [by apply getnnz_in_range|].
  unfold nnz_spec.
  induction Hks as [|k ks Hk _ IH]; csimpl; [unfold sumZ; simpl; lia|].
  rewrite sumZ_cons.
  assert (0 <= live_length M N k <= Z.min M N).
  { rewrite <- diag_nnz_live_length by (by apply diag_nnz_in_range).
    split; [by apply diag_nnz_in_range|apply diag_nnz_le_min]. }
  lia.
Qed.

(** X6.  The count does not depend on the order in which the offsets are
    stored. *)
Theorem getnnz_permutation (d d' : ndarray T) ks ks' (s : Z * Z) :
  ks ≡ₚ ks' ->
  getnnz (DiaMatrix d (Nd1 ks) s) = getnnz (DiaMatrix d' (Nd1 ks') s).
Proof.
  intros Hp. destruct s as [M N]. rewrite !getnnz_sum. f_equal.
  apply sumZ_Permutation. by apply fmap_Permutation.
Qed.

(** X7.  With strips as wide as the matrix ([N <= L]) and no negative term,
    [getnnz] is the number of entries that [tocoo] exports. *)
Theorem getnnz_counts_export (M N : Z) (L : nat) ks rows :
  length rows = length ks ->
  Forall (fun r => length r = L) rows ->
  N <= Z.of_nat L ->
  Forall (fun k => 0 <= diag_nnz M N k) ks ->
  exists C,
    tocoo (DiaMatrix (Nd2 L rows) (Nd1 ks) (M, N)) = Ret C
    /\ getnnz (DiaMatrix (Nd2 L rows) (Nd1 ks) (M, N))
       = Ret (Z.of_nat (length (coo_data C))).
Proof.
  intros Hlen Hrows HL Hpos.
  exists (coo_of_entries (entries M N ks rows) (M, N)).
  split; [by apply tocoo_entries|].
  rewrite getnnz_sum. simpl. rewrite length_fmap, (length_entries M N L) by done.
  do 2 f_equal. clear Hlen.
  induction Hpos as [|k ks Hk _ IH]; csimpl; [done|].
  by rewrite IH, stored_length_full_strip.
Qed.

(** X8.  The number of exported entries: the diagonal of offset [k] gives
    [max(0, min(M + k, N, L) - max(0, k))] of them, never more than the
    width of the strip. *)
Theorem tocoo_length (M N : Z) (L : nat) ks rows :
  length rows = length ks ->
  Forall (fun r => length r = L) rows ->
  exists C,
    tocoo (DiaMatrix (Nd2 L rows) (Nd1 ks) (M, N)) = Ret C
    /\ Z.of_nat (length (coo_data C)) = sumZ (stored_length M N L <$> ks)
    /\ (length (coo_data C) <= length ks * L)%nat.
Proof.
  intros Hlen Hrows.
  exists (coo_of_entries (entries M N ks rows) (M, N)).
  split; [by apply tocoo_entries|].
  simpl. rewrite length_fmap.
  pose proof (length_entries M N L ks rows Hlen Hrows) as E.
  split; [done|].
  assert (sumZ (stored_length M N L <$> ks) <= Z.of_nat (length ks) * Z.of_nat L).
  { clear. induction ks as [|k ks IH]; csimpl; [unfold sumZ; simpl; lia|].
    rewrite sumZ_cons. pose proof (stored_length_le_strip M N L k). lia. }
  nia.
Qed.

Lemma fmap_filter_zip_fst {X : Type} (P : Z -> Prop) `{!forall c, Decision (P c)}
    (g : Z -> X) (cs : list Z) (vs : list T) :
  length cs = length vs ->
  (fun cv => g cv.1) <$> filter (fun cv => P cv.1) (zip cs vs)
  = g <$> filter P cs.
Proof.
  revert vs. induction cs as [|c cs IH]; intros [|v vs] Hlen; try done.
  injection Hlen as Hlen. simpl. rewrite !filter_cons. simpl.
  destruct (decide (P c)); csimpl; by rewrite IH.
Qed.

Lemma fmap_snd_filter_zip_arange (P : Z -> Prop) `{!forall c, Decision (P c)}
    (drow : list T) :
  (fun cv => cv.2) <$> filter (fun cv => P cv.1) (zip (arange (length drow)) drow)
  = (fun c => default zero (drow !! Z.to_nat c)) <$> filter P (arange (length drow)).
Proof.
  rewrite <- (fmap_filter_zip_fst P (fun c => default zero (drow !! Z.to_nat c))
                (arange (length drow)) drow) by apply length_arange.
  apply Forall_fmap_ext_1, Forall_forall. intros [c v] Hin. simpl.
  apply list_elem_of_filter in Hin as [_ Hin].
  apply elem_of_zip_arange in Hin as [_ ->]. done.
Qed.

(** X9.  The order of the export: diagonal by diagonal in the order of the
    offsets, and by ascending column within a diagonal; the columns are the
    live columns of the strip, the rows are the columns minus the offset,
    and the values are the elements of the strip at those columns. *)
Theorem tocoo_diagonal_major (M N : Z) (L : nat) ks rows :
  length rows = length ks ->
  Forall (fun r => length r = L) rows ->
  exists C,
    tocoo (DiaMatrix (Nd2 L rows) (Nd1 ks) (M, N)) = Ret C
    /\ coo_col C = concat ((fun k => filter (live M N k) (arange L)) <$> ks)
    /\ coo_row C
       = concat ((fun k => (fun c => c - k) <$> filter (live M N k) (arange L))
                   <$> ks)
    /\ coo_data C
       = concat (zip_with
                   (fun k drow => (fun c => default zero (drow !! Z.to_nat c))
                                    <$> filter (live M N k) (arange L))
                   ks rows).
Proof.
  intros Hlen Hrows.
  exists (coo_of_entries (entries M N ks rows) (M, N)).
  split; [by apply tocoo_entries|].
  unfold coo_of_entries, entries. simpl.
  revert rows Hlen Hrows.
  induction ks as [|k ks IH]; intros [|drow rows] Hlen Hrows; try done.
  injection Hlen as Hlen. apply Forall_cons in Hrows as [HL Hrows].
  destruct (IH rows Hlen Hrows) as (IH1 & IH2 & IH3).
  csimpl. rewrite !fmap_app, IH1, IH2, IH3.
  unfold diag_entries. rewrite <- !list_fmap_compose.
  repeat split; f_equal.
  - rewrite <- HL, <- (list_fmap_id (filter _ (arange _))).
    exact (fmap_filter_zip_fst (live M N k) id
             (arange (length drow)) drow (length_arange _)).
  - rewrite <- HL.
    exact (fmap_filter_zip_fst (live M N k) (fun c => c - k)
             (arange (length drow)) drow (length_arange _)).
  - rewrite <- HL. exact (fmap_snd_filter_zip_arange (live M N k) drow).
Qed.

End MoreCounting.

Lemma getnnz_within_matrix_witness :
  getnnz A44 = Ret (nnz_spec 4 4 [0; -1; 2])
  /\ 0 <= nnz_spec 4 4 [0; -1; 2] <= 3 * Z.min 4 4.
Proof.
  apply (getnnz_within_matrix (T:=Z) (Nd2 4 [[1;2;3;4]; [1;2;3;4]; [1;2;3;4]])
           [0; -1; 2] 4 4); [lia|lia|].
  repeat constructor; lia.
Defined.

Lemma getnnz_permutation_witness :
  getnnz (DiaMatrix (Nd2 4 [[1;2;3;4]; [5;6;7;8]]) (Nd1 [1; -2]) (4, 4))
  = getnnz (DiaMatrix (Nd2 2 [[0;0]; [0;0]]) (Nd1 [-2; 1]) (4, 4)).
Proof.
  apply (getnnz_permutation (T:=Z)). apply perm_swap.
Defined.

Lemma getnnz_counts_export_witness :
  exists C, tocoo A44 = Ret C /\ getnnz A44 = Ret (Z.of_nat (length (coo_data C))).
Proof.
  apply (getnnz_counts_export (T:=Z) 4 4 4 [0; -1; 2]
           [[1;2;3;4]; [1;2;3;4]; [1;2;3;4]]).
  - reflexivity.
  - repeat constructor.
  - lia.
  - repeat constructor; vm_compute; discriminate.
Defined.

Lemma tocoo_length_witness :
  exists C,
    tocoo (DiaMatrix (Nd2 2 [[5;6]; [7;8]]) (Nd1 [0; 1]) (4, 4)) = Ret C
    /\ Z.of_nat (length (coo_data C)) = sumZ (stored_length 4 4 2 <$> [0; 1])
    /\ (length (coo_data C) <= 2 * 2)%nat.
Proof.
  apply (tocoo_length (T:=Z) 4 4 2 [0; 1] [[5;6]; [7;8]]).
  - reflexivity.
  - repeat constructor.
Defined.

Lemma tocoo_diagonal_major_witness :
  exists C,
    tocoo A44 = Ret C
    /\ coo_col C = [0; 1; 2; 3; 0; 1; 2; 2; 3]
    /\ coo_row C = [0; 1; 2; 3; 1; 2; 3; 0; 1]
    /\ coo_data C = [1; 2; 3; 4; 1; 2; 3; 3; 4].
Proof.
  destruct (tocoo_diagonal_major (T:=Z) 4 4 4 [0; -1; 2]
              [[1;2;3;4]; [1;2;3;4]; [1;2;3;4]])
    as (C & HC & Hcol & Hrow & Hdata).
  - reflexivity.
  - repeat constructor.
  - exists C. split; [exact HC|]. rewrite Hcol, Hrow, Hdata. by vm_compute.
Defined.

(** ** Scaling *)

Lemma map_array_compose {X Y W : Type} (f : X -> Y) (g : Y -> W) (a : ndarray X) :
  map_array g (map_array f a) = map_array (fun v => g (f v)) a.
Proof.
  destruct a as [x|xs|c rows|d0 d1 d2 rest flat]; simpl; f_equal.
  - by rewrite <- list_fmap_compose.
  - rewrite <- list_fmap_compose. apply list_fmap_ext. intros _ r _. simpl.
    by rewrite <- list_fmap_compose.
  - by rewrite <- list_fmap_compose.
Qed.

Section Scaling.
Context {T : Type} {DT : Dtype T}.
Implicit Types (A : dia_matrix T) (rows : list (list T)) (ks : list Z).

Lemma diag_entries_fmap (f : T -> T) (M N k : Z) (drow : list T) :
  diag_entries M N k (f <$> drow)
  = (fun e => (e.1, f e.2)) <$> diag_entries M N k drow.
Proof.
  unfold diag_entries. rewrite length_fmap.
  generalize (arange (length drow)) as cs. intros cs. revert drow.
  induction cs as [|c cs IH]; intros [|v vs]; try done.
  csimpl. rewrite !filter_cons. simpl.
  destruct (decide (live M N k c)); csimpl; by rewrite IH.
Qed.

Lemma entries_fmap (f : T -> T) (M N : Z) ks rows :
  entries M N ks (fmap (M:=list) (fmap (M:=list) f) rows)
  = (fun e => (e.1, f e.2)) <$> entries M N ks rows.
Proof.
  unfold entries. revert rows.
  induction ks as [|k ks IH]; intros [|drow rows]; try done.
  csimpl. by rewrite fmap_app, IH, diag_entries_fmap.
Qed.

(** X10.  Scaling twice: both products are matrices of this format, the second
    holds every element multiplied by [s] and then by [t], and the offsets,
    the shape and the count of [getnnz] are those of the first matrix. *)
Theorem mul_scalar_twice A (s t : T) :
  constructed A ->
  exists A1 A2,
    __mul__ A (Nd0 s) = Ret (Scaled A1)
    /\ __mul__ A1 (Nd0 t) = Ret (Scaled A2)
    /\ data A2 = map_array (fun v => mul t (mul s v)) (data A)
    /\ diags A2 = diags A /\ shape A2 = shape A
    /\ getnnz A2 = getnnz A.
Proof.
  intros HA.
  destruct (constructed_normal A HA)
    as (L & rows & ks & sh & -> & Hlen & Hnd & Hint & Hsh).
  eexists _, _. split; [by apply mul_scalar_normal|].
  split; [apply mul_scalar_normal; [done|by rewrite length_fmap|done..]|].
  cbn [data diags shape]. split; [|done].
  change (map_array (mul t) (map_array (mul s) (Nd2 L rows))
          = map_array (fun v => mul t (mul s v)) (Nd2 L rows)).
  apply map_array_compose.
Qed.

(** X11.  The export of a scaled matrix is the export of the matrix with every
    value multiplied by the scalar, at the same positions in the same
    order. *)
Theorem tocoo_of_scaled A (s : T) :
  constructed A -> wf (data A) ->
  exists A' C,
    __mul__ A (Nd0 s) = Ret (Scaled A')
    /\ tocoo A = Ret C
    /\ tocoo A'
       = Ret (CooMatrix (mul s <$> coo_data C) (coo_row C) (coo_col C) (coo_shape C)).
Proof.
  intros HA Hwf.
  destruct (constructed_normal A HA)
    as (L & rows & ks & [M N] & -> & Hlen & Hnd & Hint & Hsh).
  simpl in Hwf.
  eexists _, _. split; [by apply mul_scalar_normal|].
  split; [by apply tocoo_entries|].
  rewrite tocoo_entries.
  - rewrite entries_fmap. unfold coo_of_entries. simpl.
    by rewrite <- !list_fmap_compose.
  - by rewrite length_fmap.
  - apply Forall_fmap. eapply Forall_impl; [exact Hwf|].
    intros r Hr. simpl. by rewrite length_fmap.
Qed.

End Scaling.

Lemma mul_scalar_twice_witness :
  exists A1 A2,
    __mul__ A44 (Nd0 2) = Ret (Scaled A1)
    /\ __mul__ A1 (Nd0 3) = Ret (Scaled A2)
    /\ data A2 = Nd2 4 [[6;12;18;24]; [6;12;18;24]; [6;12;18;24]]
    /\ getnnz A2 = Ret 9.
Proof.
  destruct (mul_scalar_twice A44 2 3) as (A1 & A2 & H1 & H2 & Hd & _ & _ & Hn).
  - by apply (constructed_pair (Nd2 4 [[1;2;3;4]; [1;2;3;4]; [1;2;3;4]])
                (Nd1 [0; -1; 2]) (Some (4, 4))).
  - exists A1, A2. split; [exact H1|]. split; [exact H2|].
    split; [by rewrite Hd|by rewrite Hn].
Defined.

Lemma tocoo_of_scaled_witness :
  exists A' C,
    __mul__ A44 (Nd0 2) = Ret (Scaled A')
    /\ tocoo A44 = Ret C
    /\ tocoo A'
       = Ret (CooMatrix (Z.mul 2 <$> coo_data C) (coo_row C) (coo_col C) (coo_shape C)).
Proof.
  change (Z.mul 2) with (mul (T:=Z) 2).
  apply (tocoo_of_scaled A44 2).
  - by apply (constructed_pair (Nd2 4 [[1;2;3;4]; [1;2;3;4]; [1;2;3;4]])
                (Nd1 [0; -1; 2]) (Some (4, 4))).
  - repeat constructor.
Defined.

(** ** Products with dense operands *)

Lemma for_each_app {S X : Type} (body : S -> X -> res S) (l1 l2 : list X) (s : S) :
  for_each body (l1 ++ l2) s = for_each body l1 s ≫= for_each body l2.
Proof.
  revert s. induction l1 as [|x l1 IH]; intros s; simpl; [done|].
  destruct (body s x) as [s'|e]; simpl; [apply IH|done].
Qed.

Lemma slice_index_le (n : nat) (i : Z) : (slice_index n i <= n)%nat.
Proof. unfold slice_index. destruct (i <? 0); lia. Qed.

Lemma length_slice_index {A : Type} (l : list A) (s e : Z) :
  length (slice l s e)
  = (slice_index (length l) e - slice_index (length l) s)%nat.
Proof.
  unfold slice. rewrite length_take, length_drop.
  pose proof (slice_index_le (length l) e). lia.
Qed.

(** Writing through a view and reading the view back. *)
Lemma slice_of_slice_assign {A : Type} (l : list A) (s e : Z) (new : list A) :
  length new = length (slice l s e) ->
  length (slice_assign l s e new) = length l
  /\ slice (slice_assign l s e new) s e = new.
Proof.
  rewrite length_slice_index. intros Hn.
  pose proof (slice_index_le (length l) s) as Hs.
  pose proof (slice_index_le (length l) e) as He.
  assert (Hlen : length (slice_assign l s e new) = length l).
  { unfold slice_assign. rewrite !length_app, length_take, length_drop. lia. }
  split; [done|].
  unfold slice. rewrite Hlen. unfold slice_assign.
  rewrite drop_app_length' by (rewrite length_take; lia).
  by apply take_app_length'.
Qed.

Lemma ufunc2_length {A : Type} (d : A) (f : A -> A -> A) (a b : ndarray A)
    (w p : nat) (out : list (list A)) :
  ufunc2 d f a b w p = Ret out -> length out = w.
Proof.
  unfold ufunc2. destruct (broadcast_shapes _ _); [|done].
  case_bool_decide; [|done]. intros [= <-]. apply length_tabulate2.
Qed.

Section MoreMatvec.
Context {T : Type} {DT : Dtype T}.
Implicit Types (x y temp rows : list (list T)) (diag : list T) (ks : list Z).

(** One turn of the loop reads nothing of what [temp] held before. *)
Lemma matvec_step_scratch (M N : Z) (L P : nat) (x : ndarray T) y
    (t1 t2 : list (list T)) (dk : list T * Z) :
  length t1 = length t2 ->
  match matvec_step M N L P x (y, t1) dk, matvec_step M N L P x (y, t2) dk with
  | Ret (y1, t1'), Ret (y2, t2') => y1 = y2 /\ length t1' = length t2'
  | Raise e1, Raise e2 => e1 = e2
  | _, _ => False
  end.
Proof.
  intros Hlen. destruct dk as [diag k]. unfold matvec_step.
  set (j0 := Z.max 0 k). set (j1 := Z.min (Z.min (M + k) N) (Z.of_nat L)).
  set (i0 := Z.max 0 (- k)). set (i1 := i0 + (j1 - j0)).
  destruct (slice0 x j0 j1) as [xs|e]; [|done]. cbn [mbind res_bind].
  assert (Hw : length (slice t1 i0 i1) = length (slice t2 i0 i1))
    by (by rewrite !length_slice_index, Hlen).
  rewrite <- Hw.
  destruct (ufunc2 zero mul (column (slice diag j0 j1)) xs
              (length (slice t1 i0 i1)) P) as [prod|e] eqn:Ep; [|done].
  cbn [mbind res_bind]. apply ufunc2_length in Ep.
  destruct (slice_of_slice_assign t1 i0 i1 prod Ep) as [Hl1 ->].
  destruct (slice_of_slice_assign t2 i0 i1 prod) as [Hl2 ->]; [by rewrite <- Hw|].
  destruct (ufunc2 zero add (Nd2 P (slice y i0 i1)) (Nd2 P prod)
              (length (slice y i0 i1)) P) as [sum|e]; [|done].
  cbn [mbind res_bind]. split; [done|]. by rewrite Hl1, Hl2.
Qed.

Lemma for_each_matvec_scratch (M N : Z) (L P : nat) (x : ndarray T)
    (dks : list (list T * Z)) y (t1 t2 : list (list T)) :
  length t1 = length t2 ->
  match for_each (matvec_step M N L P x) dks (y, t1),
        for_each (matvec_step M N L P x) dks (y, t2) with
  | Ret (y1, _), Ret (y2, _) => y1 = y2
  | Raise e1, Raise e2 => e1 = e2
  | _, _ => False
  end.
Proof.
  revert y t1 t2. induction dks as [|dk dks IH]; intros y t1 t2 Hlen; [done|].
  cbn [for_each].
  pose proof (matvec_step_scratch M N L P x y t1 t2 dk Hlen) as Hs.
  destruct (matvec_step M N L P x (y, t1) dk) as [[y1 t1']|e1],
           (matvec_step M N L P x (y, t2) dk) as [[y2 t2']|e2]; try done.
  destruct Hs as [<- Hl]. cbn [mbind res_bind]. by apply IH.
Qed.

End MoreMatvec.

(** X12.  The scratch array [temp] comes from [empty_like] and is not
    initialised.  Whatever it holds, [matvec] gives the same outcome (the
    same product or the same exception), for every matrix and operand. *)
Theorem matvec_ignores_uninitialised {T : Type}
    (z : T) (a m : T -> T -> T) (junk1 junk2 : T)
    (A : dia_matrix T) (other : ndarray T) :
  matvec (DT := Build_Dtype T z a m junk1) A other
  = matvec (DT := Build_Dtype T z a m junk2) A other.
Proof.
  unfold matvec.
  set (x := match other with Nd1 xs => column xs | _ => other end).
  destruct (shape_at x 0) as [x0|e]; [|reflexivity]. cbn [mbind res_bind].
  case_bool_decide; [reflexivity|].
  destruct (shape_at x 1) as [P|e]; [|reflexivity]. cbn [mbind res_bind].
  unfold full. destruct (Z.ltb_spec (shape A).1 0); [reflexivity|].
  cbn [mbind res_bind zero junk].
  destruct (shape_at (data A) 1) as [L|e]; [|reflexivity]. cbn [mbind res_bind].
  destruct (shape A) as [M N].
  destruct (matrix_rows (data A)) as [[c rows]|e]; [|reflexivity]. cbn [mbind res_bind].
  destruct (scalars (diags A)) as [ks|e]; [|reflexivity]. cbn [mbind res_bind].
  pose proof (for_each_matvec_scratch (DT := Build_Dtype T z a m junk1)
                M N L P x (zip rows ks)
                (replicate (Z.to_nat (M, N).1) (replicate P z))
                (replicate (Z.to_nat (M, N).1) (replicate P junk1))
                (replicate (Z.to_nat (M, N).1) (replicate P junk2))) as Hs.
  rewrite !length_replicate in Hs. specialize (Hs eq_refl).
  change (matvec_step (DT := Build_Dtype T z a m junk2))
    with (matvec_step (DT := Build_Dtype T z a m junk1)).
  destruct (for_each _ _ (_, replicate _ (replicate P junk1))) as [[y1 t1]|e1],
           (for_each _ _ (_, replicate _ (replicate P junk2))) as [[y2 t2]|e2];
    try done.
  - by subst.
  - by subst.
Qed.


Section Windows.
Context {T : Type} {DT : Dtype T}.
Implicit Types (x rows : list (list T)) (diag : list T) (ks : list Z).

Lemma for_each_matvec_step_length (M N : Z) (L P : nat) x
    (dks : list (list T * Z)) (f : nat -> nat -> T) (temp : list (list T)) :
  0 <= M -> N = Z.of_nat (length x) ->
  Forall (fun dk => length dk.1 = L /\ window_ok M N L dk.2) dks ->
  length temp = Z.to_nat M ->
  exists temp',
    for_each (matvec_step M N L P (Nd2 P x)) dks (tabulate2 (Z.to_nat M) P f, temp)
    = Ret (tabulate2 (Z.to_nat M) P
             (fun r p => fold_left (accumulate M N L x r p) dks (f r p)), temp')
    /\ length temp' = Z.to_nat M.
Proof.
  intros HM HN Hdks. revert f temp.
  induction Hdks as [|[diag k] dks [HL Hwin] _ IH]; intros f temp Htemp.
  - by exists temp.
  - simpl in HL, Hwin.
    destruct (matvec_step_spec M N L P x f temp diag k) as (temp1 & E & Ht1);
      try done.
    cbn [for_each]. rewrite E. cbn [mbind res_bind].
    destruct (IH (fun r p => accumulate M N L x r p (f r p) (diag, k)) temp1 Ht1)
      as (temp2 & E2 & Ht2).
    exists temp2. by rewrite E2.
Qed.

(** A positive offset whose window is empty, [min(M + k, N, L) < k], while
    [k - min(M + k, N, L) < M]: [i_end] is negative, the view
    [temp[0:i_end]] keeps rows, and [multiply] refuses its empty inputs. *)
Lemma matvec_step_short_window (M N : Z) (L P : nat) x
    (y temp : list (list T)) diag k :
  0 <= M -> N = Z.of_nat (length x) -> length temp = Z.to_nat M ->
  Z.min (Z.min (M + k) N) (Z.of_nat L) < k ->
  k - Z.min (Z.min (M + k) N) (Z.of_nat L) < M ->
  matvec_step M N L P (Nd2 P x) (y, temp) (diag, k)
  = Raise (ValueError "invalid return array shape").
Proof.
  intros HM HN Htemp Hlt Hrows. unfold matvec_step.
  set (j1 := Z.min (Z.min (M + k) N) (Z.of_nat L)) in *.
  assert (Hk : 0 < k) by lia.
  rewrite (Z.max_r 0 k), (Z.max_l 0 (- k)) by lia.
  cbn [slice0 mbind res_bind].
  unfold ufunc2, column. cbn [shape_of]. rewrite length_fmap.
  rewrite !length_slice_index, Htemp.
  assert (slice_index (length diag) j1 - slice_index (length diag) k = 0)%nat
    as -> by (unfold slice_index;
              destruct (Z.ltb_spec j1 0), (Z.ltb_spec k 0); lia).
  assert (slice_index (length x) j1 - slice_index (length x) k = 0)%nat
    as -> by (unfold slice_index;
              destruct (Z.ltb_spec j1 0), (Z.ltb_spec k 0); lia).
  rewrite broadcast_column.
  rewrite bool_decide_eq_false_2; [done|].
  intros [= E]. revert E. unfold slice_index.
  destruct (Z.ltb_spec (0 + (j1 - k)) 0), (Z.ltb_spec 0 0); lia.
Qed.


(** X14.  The other side of the loop: when the diagonals before offset [k] have
    well-formed windows and [k] is a positive offset with
    [min(M + k, N, L) < k < M + min(M + k, N, L)] (for instance a strip too
    narrow to reach column [k]), [matvec] raises and returns no product. *)
Theorem matvec_short_window_raises (M N : Z) (L : nat)
    rows1 diag rows2 ks1 (k : Z) ks2 :
  0 <= M ->
  length rows1 = length ks1 ->
  Forall (fun r => length r = L) rows1 ->
  Forall (window_ok M N L) ks1 ->
  Z.min (Z.min (M + k) N) (Z.of_nat L) < k ->
  k - Z.min (Z.min (M + k) N) (Z.of_nat L) < M ->
  let A := DiaMatrix (Nd2 L (rows1 ++ diag :: rows2)) (Nd1 (ks1 ++ k :: ks2)) (M, N) in
  (forall (P : nat) x,
      N = Z.of_nat (length x) ->
      matvec A (Nd2 P x) = Raise (ValueError "invalid return array shape"))
  /\ (forall xs : list T,
        N = Z.of_nat (length xs) ->
        matvec A (Nd1 xs) = Raise (ValueError "invalid return array shape")).
Proof.
  intros HM Hlen Hrows Hks Hlt Hk A.
  assert (G : forall (P : nat) x,
    N = Z.of_nat (length x) ->
    for_each (matvec_step M N L P (Nd2 P x))
      (zip (rows1 ++ diag :: rows2) (ks1 ++ k :: ks2))
      (replicate (Z.to_nat M) (replicate P zero),
       replicate (Z.to_nat M) (replicate P junk))
    = Raise (ValueError "invalid return array shape")).
  { intros P x HN. rewrite zip_with_app by done. rewrite for_each_app.
    rewrite replicate_tabulate2.
    destruct (for_each_matvec_step_length M N L P x (zip rows1 ks1)
                (fun _ _ => zero) (replicate (Z.to_nat M) (replicate P junk)))
      as (temp' & E & Ht); try done.
    - by apply Forall_zip_rows_offsets.
    - by rewrite length_replicate.
    - rewrite E. cbn [mbind res_bind zip_with for_each].
      by rewrite matvec_step_short_window. }
  split.
  - intros P x HN. unfold matvec, full, A.
    cbn [shape_at shape_of lookup list_lookup data diags shape fst snd mbind res_bind].
    rewrite (bool_decide_eq_false_2 (N <> _)) by (intros Hne; by apply Hne).
    cbn [shape_at shape_of lookup list_lookup mbind res_bind].
    destruct (Z.ltb_spec M 0); [lia|].
    cbn [mbind res_bind matrix_rows scalars]. by rewrite G.
  - intros xs HN.
    assert (HN' : N = Z.of_nat (length ((fun v : T => [v]) <$> xs)))
      by (by rewrite length_fmap).
    unfold matvec, full, column, A.
    cbn [shape_at shape_of lookup list_lookup data diags shape fst snd mbind res_bind].
    rewrite (bool_decide_eq_false_2 (N <> _)) by (intros Hne; by apply Hne).
    cbn [shape_at shape_of lookup list_lookup mbind res_bind].
    destruct (Z.ltb_spec M 0); [lia|].
    cbn [mbind res_bind matrix_rows scalars]. by rewrite (G 1%nat _ HN').
Qed.

End Windows.


Lemma matvec_short_window_raises_witness :
  matvec (DiaMatrix (Nd2 2 [[1;2]; [5;6]; [7;8]]) (Nd1 [0; 3; -1]) (4, 4))
    (Nd1 [1; 1; 1; 1])
  = Raise (ValueError "invalid return array shape").
Proof.
  apply (proj2 (matvec_short_window_raises (T:=Z) 4 4 2 [[1;2]] [5;6] [[7;8]]
                  [0] 3 [-1] ltac:(lia) eq_refl
                  ltac:(repeat constructor)
                  ltac:(repeat constructor; unfold window_ok; lia)
                  ltac:(lia) ltac:(lia))).
  reflexivity.
Defined.

(** ** The product and the coordinate export *)






Section ExportProduct.
Context {T : Type} {DT : Dtype T}.
Implicit Types (x rows : list (list T)) (drow : list T) (ks : list Z).




End ExportProduct.



